(** * The demo login page of the legal-operations dashboard (app.js)

    A shallow embedding of [src/app.js]: the in-memory user list, the
    current-session variable, the browser's local storage and the part of
    the document the script reads and writes, together with the event
    handlers ([handleLogin], [handleRegister], [handleLogout],
    [showDashboard], [showSection], the two form toggles and the load
    handler).

    Conventions of the model.
    - A JavaScript string is the list of its UTF-16 code units
      ([jsstring]); [length] is the script's [.length] and Leibniz equality
      is [===] on strings.
    - The script runs in a state-and-exception monad [JS]: a handler that
      dereferences [null] (an element that [getElementById] did not find, a
      [null] session) stops with [TypeError], and everything it wrote
      before that point stays written, as in the browser.
    - The document is the list, in tree order, of the elements the page
      has when the script starts; an element handle is its position in
      that list.  The elements whose [textContent] or [innerHTML] the
      script assigns are taken to be leaves: assigning them does not
      detach another element the script looks up.  The text and the
      markup assigned to an element are recorded on that element, each as
      it was last assigned.  The nodes the browser builds from assigned
      markup (the message [div] of lines 45, 58 and 64) are not listed:
      they have no id and neither of the classes the script selects by,
      so no lookup of the script finds them, and no statement below is
      about them or about the number of elements.  The elements whose
      [value] the script reads are form controls, whose [value] is a
      string.
    - Local storage is a finite map from strings to strings; its quota
      and security errors are not modelled.
    - The built-ins whose definition is the browser's, not the script's
      ([JSON.parse], [JSON.stringify], the conversion of a value to a
      string, [String.prototype.toUpperCase]) are the fields of the class
      [Host]; every theorem holds for every host.  [RefHost] is an
      executable host used to evaluate the handlers on concrete pages. *)

From Stdlib Require Import ZArith NArith List String Ascii Lia.
From stdpp Require Import base option list gmap strings pretty.

Local Open Scope nat_scope.

(** ** Strings *)

Abbreviation jsstring := (list N).

(** The code units of an ASCII literal of the script. *)
Definition js (s : string) : jsstring :=
  (λ a, N_of_ascii a) <$> list_ascii_of_string s.

(** ** Values *)

(** The values that can be held by [currentUser]: [null], a record of the
    user list, or whatever [JSON.parse] returned.  A number [VNum m e] is
    m * 10^e; the script never inspects one. *)
#[warnings="-register-all"]
Inductive JsValue :=
| VUndefined
| VNull
| VBool (b : bool)
| VNum (m e : Z)
| VStr (s : jsstring)
| VArr (items : list JsValue)
| VObj (props : list (jsstring * JsValue)).

(** A record of the [users] array. *)
Record User := {
  id : nat;
  name : jsstring;
  email : jsstring;
  password : jsstring;
  userType : jsstring;
  role : jsstring
}.

#[global] Instance User_eq_dec : EqDecision User.
Proof. solve_decision. Defined.

(** The object a [User] record is at run time, its properties in the order
    of the object literal. *)
Definition user_obj (u : User) : JsValue :=
  VObj [ (js "id", VNum (Z.of_nat (id u)) 0);
         (js "name", VStr (name u));
         (js "email", VStr (email u));
         (js "password", VStr (password u));
         (js "userType", VStr (userType u));
         (js "role", VStr (role u)) ].

(** [const users = [...]], lines 2-27. *)
Definition initial_users : list User :=
  [ {| id := 1; name := js "Demo User"; email := js "demo@lawfirm.com";
       password := js "Demo@123"; userType := js "firm";
       role := js "Law Firm" |};
    {| id := 2; name := js "Solo Attorney"; email := js "solo@attorney.com";
       password := js "Solo@123"; userType := js "solo";
       role := js "Solo Practitioner" |};
    {| id := 3; name := js "Corporate Counsel"; email := js "counsel@corp.com";
       password := js "Corp@123"; userType := js "corporate";
       role := js "In-House Counsel" |} ].

(** ** The document *)

Record Element := {
  el_id : jsstring;             (* the id attribute, [[]] when there is none *)
  classList : list jsstring;    (* the class tokens, in order *)
  href : option jsstring;       (* the href attribute *)
  display : jsstring;           (* style.display *)
  value : jsstring;             (* the value of a form control *)
  textContent : jsstring;
  innerHTML : jsstring
}.

Abbreviation Document := (list Element).

Definition has_class (c : jsstring) (e : Element) : bool :=
  bool_decide (c ∈ classList e).

(** [e.classList.add(c)]: the token list is an ordered set. *)
Definition classList_add (c : jsstring) (e : Element) : Element :=
  {| el_id := el_id e;
     classList := if has_class c e then classList e else classList e ++ [c];
     href := href e; display := display e; value := value e;
     textContent := textContent e; innerHTML := innerHTML e |}.

(** [e.classList.remove(c)]. *)
Definition classList_remove (c : jsstring) (e : Element) : Element :=
  {| el_id := el_id e;
     classList := filter (λ x, x ≠ c) (classList e);
     href := href e; display := display e; value := value e;
     textContent := textContent e; innerHTML := innerHTML e |}.

Definition set_display (s : jsstring) (e : Element) : Element :=
  {| el_id := el_id e; classList := classList e; href := href e;
     display := s; value := value e;
     textContent := textContent e; innerHTML := innerHTML e |}.

Definition set_value (s : jsstring) (e : Element) : Element :=
  {| el_id := el_id e; classList := classList e; href := href e;
     display := display e; value := s;
     textContent := textContent e; innerHTML := innerHTML e |}.

Definition set_textContent (s : jsstring) (e : Element) : Element :=
  {| el_id := el_id e; classList := classList e; href := href e;
     display := display e; value := value e;
     textContent := s; innerHTML := innerHTML e |}.

(** [e.innerHTML = s].  The markup is recorded as assigned.  The browser
    also replaces the children of [e] by the nodes it parses from [s];
    these are not elements of the list, and the text they give [e] is
    not recorded in [textContent], which the script never reads. *)
Definition set_innerHTML (s : jsstring) (e : Element) : Element :=
  {| el_id := el_id e; classList := classList e; href := href e;
     display := display e; value := value e;
     textContent := textContent e; innerHTML := s |}.

(** [document.getElementById(i)]: the first element in tree order whose id
    is [i], or [null]. *)
Definition getElementById (i : jsstring) (d : Document) : option nat :=
  fst <$> list_find (λ e, el_id e = i) d.

(** [document.querySelector('.sidebar-link[href="#"]')]. *)
Definition is_default_link (e : Element) : bool :=
  has_class (js "sidebar-link") e && bool_decide (href e = Some (js "#")).

Definition querySelector_default_link (d : Document) : option nat :=
  fst <$> list_find (λ e, is_default_link e = true) d.

(** [document.querySelectorAll('.' + c).forEach(x => x.classList.remove(t))]. *)
Definition remove_if (c t : jsstring) (e : Element) : Element :=
  if has_class c e then classList_remove t e else e.

Definition remove_from_all (c t : jsstring) (d : Document) : Document :=
  remove_if c t <$> d.

(** ** The page state *)

Record Page := {
  users : list User;
  currentUser : JsValue;
  localStorage : gmap jsstring jsstring;
  document : Document
}.

Definition with_users (f : list User → list User) (p : Page) : Page :=
  {| users := f (users p); currentUser := currentUser p;
     localStorage := localStorage p; document := document p |}.

Definition with_currentUser (v : JsValue) (p : Page) : Page :=
  {| users := users p; currentUser := v;
     localStorage := localStorage p; document := document p |}.

Definition with_localStorage
    (f : gmap jsstring jsstring → gmap jsstring jsstring) (p : Page) : Page :=
  {| users := users p; currentUser := currentUser p;
     localStorage := f (localStorage p); document := document p |}.

Definition with_document (f : Document → Document) (p : Page) : Page :=
  {| users := users p; currentUser := currentUser p;
     localStorage := localStorage p; document := f (document p) |}.

(** ** The monad of the script *)

Inductive Error := TypeError | SyntaxError.

Inductive Completion (A : Type) :=
| Normal (a : A)
| Throw (e : Error).
Arguments Normal {A} a.
Arguments Throw {A} e.

Definition JS (A : Type) : Type := Page → Completion A * Page.

Definition ret {A} (a : A) : JS A := λ p, (Normal a, p).

Definition bind {A B} (c : JS A) (k : A → JS B) : JS B :=
  λ p, match c p with
       | (Normal a, p') => k a p'
       | (Throw e, p') => (Throw e, p')
       end.

Definition throw {A} (e : Error) : JS A := λ p, (Throw e, p).

Definition gets {A} (f : Page → A) : JS A := λ p, (Normal (f p), p).

Definition modify (f : Page → Page) : JS unit := λ p, (Normal tt, f p).

Declare Scope js_scope.
Delimit Scope js_scope with js.
Notation "x <- c ;; k" := (bind c (λ x, k))
  (at level 100, c at next level, right associativity) : js_scope.
Notation "c ;; k" := (bind c (λ _, k))
  (at level 100, right associativity) : js_scope.
Bind Scope js_scope with JS.

(** ** The host *)

(** The built-ins the script calls.  [JSON_parse] is [None] on text that is
    not JSON (a [SyntaxError]); [ToString] is the conversion the browser
    applies to a value assigned to [textContent], [None] when it throws. *)
Class Host := {
  JSON_parse : jsstring → option JsValue;
  JSON_stringify : JsValue → jsstring;
  ToString : JsValue → option jsstring;
  toUpperCase : jsstring → jsstring
}.

(** ** Primitive operations of the script *)

Local Open Scope js_scope.

(** [document.getElementById(i)], possibly [null]. *)
Definition lookupElement (i : jsstring) : JS (option nat) :=
  gets (λ p, getElementById i (document p)).

(** Dereferencing a possibly-[null] element. *)
Definition deref (h : option nat) : JS nat :=
  match h with
  | Some n => ret n
  | None => throw TypeError
  end.

(** Reading a property of element [n]. *)
Definition readElement {A} (n : nat) (f : Element → A) : JS A :=
  λ p, match document p !! n with
       | Some e => (Normal (f e), p)
       | None => (Throw TypeError, p)
       end.

(** Writing element [n] in place. *)
Definition writeElement (n : nat) (f : Element → Element) : JS unit :=
  modify (with_document (alter f n)).

(** [document.getElementById(i).value]. *)
Definition getValue (i : jsstring) : JS jsstring :=
  h <- lookupElement i ;;
  n <- deref h ;;
  readElement n value.

(** [document.getElementById(i).<field> = ...]. *)
Definition assignById (i : jsstring) (f : Element → Element) : JS unit :=
  h <- lookupElement i ;;
  n <- deref h ;;
  writeElement n f.

(** The own property [k] of an object made by an object literal or by
    [JSON.parse], [undefined] when it has none. *)
Definition ownProp (v : JsValue) (k : jsstring) : JsValue :=
  match v with
  | VObj props =>
      match list_find (λ kv, kv.1 = k) props with
      | Some (_, (_, x)) => x
      | None => VUndefined
      end
  | _ => VUndefined
  end.

(** [v.k] for the two properties the script reads, [name] and [role]:
    [TypeError] on [null] and [undefined], the own property of an object,
    [undefined] on every other value (the prototypes of plain objects,
    arrays, strings, numbers and booleans define neither). *)
Definition getProp (v : JsValue) (k : jsstring) : JS JsValue :=
  match v with
  | VUndefined | VNull => throw TypeError
  | _ => ret (ownProp v k)
  end.

(** The string stored by [e.textContent = v]: the attribute is a nullable
    string, so [null] and [undefined] clear it. *)
Definition textOf `{Host} (v : JsValue) : JS jsstring :=
  match v with
  | VUndefined | VNull => ret []
  | VStr s => ret s
  | _ => match ToString v with
         | Some s => ret s
         | None => throw TypeError
         end
  end.

(** [v.charAt(0).toUpperCase()]: only a string has [charAt]. *)
Definition initialOf `{Host} (v : JsValue) : JS jsstring :=
  match v with
  | VStr s => ret (toUpperCase (take 1 s))
  | _ => throw TypeError
  end.

Definition key_currentUser : jsstring := js "currentUser".
Definition active : jsstring := js "active".

(** The double quote of the HTML attribute in the messages. *)
Definition dq : jsstring := [34%N].

(** The cross mark U+274C that starts each message. *)
Definition cross_mark : jsstring := [10060%N].

Definition form_message_error (text : string) : jsstring :=
  js "<div class=" ++ dq ++ js "form-message error" ++ dq ++ js ">"
    ++ cross_mark ++ js " " ++ js text ++ js "</div>".

Definition msg_invalid_credentials : jsstring :=
  form_message_error "Invalid email or password".
Definition msg_password_too_short : jsstring :=
  form_message_error "Password must be at least 6 characters".
Definition msg_email_registered : jsstring :=
  form_message_error "Email already registered".

(** ** The handlers *)

Section Handlers.
Context `{Host}.

(** [showSection(sectionId, linkEl)], lines 115-133.  [linkEl] is [Some n]
    for the element [n], [None] when the argument is omitted or has no
    [classList]; a place beyond the end of the document stands for an
    element outside it, and writing to it leaves the document alone. *)
Definition showSection (sectionId : jsstring) (linkEl : option nat) : JS unit :=
  modify (with_document (remove_from_all (js "content-section") active)) ;;
  modify (with_document (remove_from_all (js "sidebar-link") active)) ;;
  assignById (sectionId ++ js "-section") (classList_add active) ;;
  match linkEl with
  | Some l => writeElement l (classList_add active)
  | None => ret tt
  end.

(** [showDashboard()], lines 103-113.  In the three assignments to
    [textContent] the value is computed before the element is
    dereferenced; either step can only fail with a [TypeError] and neither
    writes anything, so their order cannot be observed. *)
Definition showDashboard : JS unit :=
  assignById (js "authScreen") (set_display (js "none")) ;;
  assignById (js "dashboard") (classList_add active) ;;
  cu <- gets currentUser ;;
  nm <- getProp cu (js "name") ;;
  t <- textOf nm ;;
  assignById (js "displayUserName") (set_textContent t) ;;
  cu <- gets currentUser ;;
  rl <- getProp cu (js "role") ;;
  t <- textOf rl ;;
  assignById (js "displayUserRole") (set_textContent t) ;;
  cu <- gets currentUser ;;
  nm <- getProp cu (js "name") ;;
  t <- initialOf nm ;;
  assignById (js "userInitial") (set_textContent t) ;;
  showSection (js "dashboard") None.

(** The predicate of [users.find] in [handleLogin]. *)
Definition credentials_match (e p : jsstring) (u : User) : bool :=
  bool_decide (email u = e) && bool_decide (password u = p).

(** [handleLogin(event)], lines 32-47.  [event.preventDefault()] only
    keeps the browser from submitting the form. *)
Definition handleLogin : JS unit :=
  e <- getValue (js "loginEmail") ;;
  p <- getValue (js "loginPassword") ;;
  errorDiv <- lookupElement (js "loginError") ;;
  us <- gets users ;;
  match find (credentials_match e p) us with
  | Some user =>
      modify (with_currentUser (user_obj user)) ;;
      modify (with_localStorage
                (insert key_currentUser (JSON_stringify (user_obj user)))) ;;
      showDashboard
  | None =>
      n <- deref errorDiv ;;
      writeElement n (set_innerHTML msg_invalid_credentials)
  end.

(** The role of a new record, line 74. *)
Definition role_of (userType : jsstring) : jsstring :=
  if decide (userType = js "firm") then js "Law Firm"
  else if decide (userType = js "solo") then js "Solo Practitioner"
  else js "In-House Counsel".

(** The object literal of lines 68-75. *)
Definition newUser (us : list User) (nm e p ut : jsstring) : User :=
  {| id := length us + 1; name := nm; email := e; password := p;
     userType := ut; role := role_of ut |}.

(** [handleRegister(event)], lines 49-81. *)
Definition handleRegister : JS unit :=
  nm <- getValue (js "registerName") ;;
  e <- getValue (js "registerEmail") ;;
  p <- getValue (js "registerPassword") ;;
  ut <- getValue (js "registerUserType") ;;
  errorDiv <- lookupElement (js "registerError") ;;
  if decide (length p < 6) then
    n <- deref errorDiv ;;
    writeElement n (set_innerHTML msg_password_too_short)
  else
    us <- gets users ;;
    match find (λ u, bool_decide (email u = e)) us with
    | Some _ =>
        n <- deref errorDiv ;;
        writeElement n (set_innerHTML msg_email_registered)
    | None =>
        let nu := newUser us nm e p ut in
        modify (with_users (λ l, l ++ [nu])) ;;
        modify (with_currentUser (user_obj nu)) ;;
        modify (with_localStorage
                  (insert key_currentUser (JSON_stringify (user_obj nu)))) ;;
        showDashboard
    end.

(** [handleLogout()], lines 83-90. *)
Definition handleLogout : JS unit :=
  modify (with_currentUser VNull) ;;
  modify (with_localStorage (delete key_currentUser)) ;;
  assignById (js "dashboard") (classList_remove active) ;;
  assignById (js "authScreen") (set_display (js "flex")) ;;
  assignById (js "loginEmail") (set_value []) ;;
  assignById (js "loginPassword") (set_value []).

(** [toggleToRegister()] and [toggleToLogin()], lines 93-101. *)
Definition toggleToRegister : JS unit :=
  assignById (js "loginForm") (set_display (js "none")) ;;
  assignById (js "registerForm") (set_display (js "block")).

Definition toggleToLogin : JS unit :=
  assignById (js "registerForm") (set_display (js "none")) ;;
  assignById (js "loginForm") (set_display (js "block")).

(** The listener of the [load] event, lines 136-149.  [getItem] gives
    [null] for an absent key, and the empty string is falsy as well. *)
Definition onLoad : JS unit :=
  savedUser <- gets (λ p, localStorage p !! key_currentUser) ;;
  match savedUser with
  | Some ((_ :: _) as s) =>
      match JSON_parse s with
      | None => throw SyntaxError
      | Some v =>
          modify (with_currentUser v) ;;
          showDashboard ;;
          defaultLink <- gets (λ p, querySelector_default_link (document p)) ;;
          match defaultLink with
          | Some l => showSection (js "dashboard") (Some l)
          | None => showSection (js "dashboard") None
          end
      end
  | _ => ret tt
  end.

(** Everything the page can run. *)
Inductive Handler :=
| HLoad
| HLogin
| HRegister
| HLogout
| HToggleToRegister
| HToggleToLogin
| HShowSection (sectionId : jsstring) (linkEl : option nat).

Definition run (h : Handler) : JS unit :=
  match h with
  | HLoad => onLoad
  | HLogin => handleLogin
  | HRegister => handleRegister
  | HLogout => handleLogout
  | HToggleToRegister => toggleToRegister
  | HToggleToLogin => toggleToLogin
  | HShowSection s l => showSection s l
  end.

End Handlers.

(** ** A reference host *)

(** An executable host: JSON text is parsed by the JSON grammar and
    printed the way [JSON.stringify] prints without an indent.  Numbers are
    kept as exact decimals (the rounding to a double is not modelled, and
    a number that is not an integer is printed in exponent form);
    [toUpperCase] maps the ASCII letters.  No theorem depends on these
    choices: the reference host only serves to run the handlers. *)
Module RefHost.

Definition is_ws (c : N) : bool :=
  (c =? 32)%N || (c =? 9)%N || (c =? 10)%N || (c =? 13)%N.

Fixpoint skip_ws (s : jsstring) : jsstring :=
  match s with
  | c :: r => if is_ws c then skip_ws r else s
  | [] => []
  end.

Definition is_digit (c : N) : bool := (48 <=? c)%N && (c <=? 57)%N.

Definition hex_value (c : N) : option N :=
  if is_digit c then Some (c - 48)%N
  else if (97 <=? c)%N && (c <=? 102)%N then Some (c - 87)%N
  else if (65 <=? c)%N && (c <=? 70)%N then Some (c - 55)%N
  else None.

Definition hex4 (a b c d : N) : option N :=
  match hex_value a, hex_value b, hex_value c, hex_value d with
  | Some x, Some y, Some z, Some w => Some (((x * 16 + y) * 16 + z) * 16 + w)%N
  | _, _, _, _ => None
  end.

(** The character an escape letter stands for. *)
Definition unescape (c : N) : option N :=
  if (c =? 34)%N then Some 34%N          (* quote *)
  else if (c =? 92)%N then Some 92%N     (* backslash *)
  else if (c =? 47)%N then Some 47%N     (* slash *)
  else if (c =? 98)%N then Some 8%N      (* b *)
  else if (c =? 102)%N then Some 12%N    (* f *)
  else if (c =? 110)%N then Some 10%N    (* n *)
  else if (c =? 114)%N then Some 13%N    (* r *)
  else if (c =? 116)%N then Some 9%N     (* t *)
  else None.

(** The characters of a string literal after its opening quote, and the
    text after its closing quote. *)
Fixpoint parse_chars (s : jsstring) : option (jsstring * jsstring) :=
  match s with
  | [] => None
  | c :: r =>
      if (c =? 34)%N then Some ([], r)
      else if (c =? 92)%N then
        match r with
        | [] => None
        | e :: r' =>
            if (e =? 117)%N then
              match r' with
              | h1 :: h2 :: h3 :: h4 :: r'' =>
                  match hex4 h1 h2 h3 h4, parse_chars r'' with
                  | Some u, Some (str, rest) => Some (u :: str, rest)
                  | _, _ => None
                  end
              | _ => None
              end
            else
              match unescape e, parse_chars r' with
              | Some u, Some (str, rest) => Some (u :: str, rest)
              | _, _ => None
              end
        end
      else if (c <? 32)%N then None
      else match parse_chars r with
           | Some (str, rest) => Some (c :: str, rest)
           | None => None
           end
  end.

Fixpoint span_digits (s : jsstring) : jsstring * jsstring :=
  match s with
  | c :: r => if is_digit c then
                let '(ds, rest) := span_digits r in (c :: ds, rest)
              else ([], s)
  | [] => ([], [])
  end.

Definition digits_value (ds : jsstring) : Z :=
  fold_left (λ acc c, acc * 10 + Z.of_N (c - 48)%N)%Z ds 0%Z.

(** [-? int frac? exp?] *)
Definition parse_number (s : jsstring) : option (JsValue * jsstring) :=
  let '(neg, s1) := match s with
                    | c :: r => if (c =? 45)%N then (true, r) else (false, s)
                    | [] => (false, s)
                    end in
  let '(int_ds, s2) := span_digits s1 in
  match int_ds with
  | [] => None
  | d :: more =>
      if (d =? 48)%N && negb (bool_decide (more = [])) then None
      else
        let frac :=
          match s2 with
          | c :: r => if (c =? 46)%N then
                        match span_digits r with
                        | ([], _) => None
                        | (fs, rest) => Some (fs, rest)
                        end
                      else Some ([], s2)
          | [] => Some ([], s2)
          end in
        match frac with
        | None => None
        | Some (frac_ds, s3) =>
            let expo :=
              match s3 with
              | c :: r =>
                  if (c =? 101)%N || (c =? 69)%N then
                    let '(eneg, r1) :=
                      match r with
                      | sg :: r' => if (sg =? 45)%N then (true, r')
                                    else if (sg =? 43)%N then (false, r')
                                    else (false, r)
                      | [] => (false, r)
                      end in
                    match span_digits r1 with
                    | ([], _) => None
                    | (es, rest) =>
                        let v := digits_value es in
                        Some ((if eneg then - v else v)%Z, rest)
                    end
                  else Some (0%Z, s3)
              | [] => Some (0%Z, s3)
              end in
            match expo with
            | None => None
            | Some (ex, s4) =>
                let m := digits_value (int_ds ++ frac_ds) in
                Some (VNum (if neg then - m else m)%Z
                           (ex - Z.of_nat (length frac_ds))%Z, s4)
            end
        end
  end.

(** A key parsed twice keeps its first position and its last value. *)
Fixpoint set_prop (k : jsstring) (v : JsValue)
    (props : list (jsstring * JsValue)) : list (jsstring * JsValue) :=
  match props with
  | [] => [(k, v)]
  | (k', v') :: rest =>
      if decide (k' = k) then (k, v) :: rest else (k', v') :: set_prop k v rest
  end.

Definition starts_with (lit s : jsstring) : option jsstring :=
  if decide (take (length lit) s = lit) then Some (drop (length lit) s)
  else None.

Fixpoint parse_value (fuel : nat) (s : jsstring) : option (JsValue * jsstring) :=
  match fuel with
  | 0 => None
  | S fuel =>
      match skip_ws s with
      | [] => None
      | c :: r =>
          if (c =? 34)%N then
            match parse_chars r with
            | Some (str, rest) => Some (VStr str, rest)
            | None => None
            end
          else if (c =? 91)%N then
            match skip_ws r with
            | c' :: r' =>
                if (c' =? 93)%N then Some (VArr [], r')
                else parse_items fuel [] r
            | [] => None
            end
          else if (c =? 123)%N then
            match skip_ws r with
            | c' :: r' =>
                if (c' =? 125)%N then Some (VObj [], r')
                else parse_members fuel [] r
            | [] => None
            end
          else if (c =? 110)%N then
            rest ← starts_with (js "null") (c :: r); Some (VNull, rest)
          else if (c =? 116)%N then
            rest ← starts_with (js "true") (c :: r); Some (VBool true, rest)
          else if (c =? 102)%N then
            rest ← starts_with (js "false") (c :: r); Some (VBool false, rest)
          else parse_number (c :: r)
      end
  end
with parse_items (fuel : nat) (acc : list JsValue) (s : jsstring)
    : option (JsValue * jsstring) :=
  match fuel with
  | 0 => None
  | S fuel =>
      match parse_value fuel s with
      | Some (v, rest) =>
          match skip_ws rest with
          | c :: r =>
              if (c =? 93)%N then Some (VArr (acc ++ [v]), r)
              else if (c =? 44)%N then parse_items fuel (acc ++ [v]) r
              else None
          | [] => None
          end
      | None => None
      end
  end
with parse_members (fuel : nat) (acc : list (jsstring * JsValue)) (s : jsstring)
    : option (JsValue * jsstring) :=
  match fuel with
  | 0 => None
  | S fuel =>
      match skip_ws s with
      | q :: r0 =>
          if (q =? 34)%N then
            match parse_chars r0 with
            | Some (k, rest0) =>
                match skip_ws rest0 with
                | colon :: r1 =>
                    if (colon =? 58)%N then
                      match parse_value fuel r1 with
                      | Some (v, rest) =>
                          match skip_ws rest with
                          | c :: r =>
                              if (c =? 125)%N then Some (VObj (set_prop k v acc), r)
                              else if (c =? 44)%N then
                                parse_members fuel (set_prop k v acc) r
                              else None
                          | [] => None
                          end
                      | None => None
                      end
                    else None
                | [] => None
                end
            | None => None
            end
          else None
      | [] => None
      end
  end.

(** [JSON.parse(s)]: one value, white space around it, nothing else. *)
Definition parse (s : jsstring) : option JsValue :=
  match parse_value (S (2 * length s)) s with
  | Some (v, rest) => match skip_ws rest with [] => Some v | _ => None end
  | None => None
  end.

(** Printing. *)

Definition hex_digit (n : N) : N :=
  if (n <? 10)%N then (48 + n)%N else (87 + n)%N.

Definition bs : jsstring := [92%N].

Definition escape_u (c : N) : jsstring :=
  bs ++ js "u" ++ [ hex_digit (c / 4096 mod 16); hex_digit (c / 256 mod 16);
               hex_digit (c / 16 mod 16); hex_digit (c mod 16) ]%N.

Definition is_high_surrogate (c : N) : bool := (55296 <=? c)%N && (c <=? 56319)%N.
Definition is_low_surrogate (c : N) : bool := (56320 <=? c)%N && (c <=? 57343)%N.

(** The body of a quoted string: the two-character escapes, a u-escape for
    the other control characters and for a surrogate without its pair. *)
Fixpoint quote_chars (s : jsstring) : jsstring :=
  match s with
  | [] => []
  | c :: r =>
      if (c =? 34)%N then bs ++ dq ++ quote_chars r
      else if (c =? 92)%N then bs ++ bs ++ quote_chars r
      else if (c =? 8)%N then bs ++ js "b" ++ quote_chars r
      else if (c =? 12)%N then bs ++ js "f" ++ quote_chars r
      else if (c =? 10)%N then bs ++ js "n" ++ quote_chars r
      else if (c =? 13)%N then bs ++ js "r" ++ quote_chars r
      else if (c =? 9)%N then bs ++ js "t" ++ quote_chars r
      else if (c <? 32)%N then escape_u c ++ quote_chars r
      else if is_high_surrogate c then
        match r with
        | c' :: r' =>
            if is_low_surrogate c' then c :: c' :: quote_chars r'
            else escape_u c ++ quote_chars r
        | [] => escape_u c
        end
      else if is_low_surrogate c then escape_u c ++ quote_chars r
      else c :: quote_chars r
  end.

Definition quote (s : jsstring) : jsstring := dq ++ quote_chars s ++ dq.

Definition print_number (m e : Z) : jsstring :=
  if (e =? 0)%Z then js (pretty m) else js (pretty m) ++ js "e" ++ js (pretty e).

Definition join (sep : jsstring) (parts : list jsstring) : jsstring :=
  match parts with
  | [] => []
  | x :: rest => x ++ concat ((λ y, sep ++ y) <$> rest)
  end.

(** [JSON.stringify(v)].  A property whose value is [undefined] is
    skipped, an [undefined] item of an array is printed as [null]. *)
Fixpoint stringify (v : JsValue) : jsstring :=
  match v with
  | VUndefined => js "undefined"
  | VNull => js "null"
  | VBool b => if b then js "true" else js "false"
  | VNum m e => print_number m e
  | VStr s => quote s
  | VArr items =>
      js "[" ++ join (js ",")
        ((fix each (l : list JsValue) : list jsstring :=
            match l with
            | [] => []
            | VUndefined :: l' => js "null" :: each l'
            | x :: l' => stringify x :: each l'
            end) items) ++ js "]"
  | VObj props =>
      js "{" ++ join (js ",")
        ((fix each (l : list (jsstring * JsValue)) : list jsstring :=
            match l with
            | [] => []
            | (_, VUndefined) :: l' => each l'
            | (k, x) :: l' => (quote k ++ js ":" ++ stringify x) :: each l'
            end) props) ++ js "}"
  end.

(** The conversion of a value to a string.  An object made by [JSON.parse]
    converts to [[object Object]] unless an own [toString] property, which
    cannot be a function, hides the inherited method. *)
Fixpoint to_string (v : JsValue) : option jsstring :=
  match v with
  | VUndefined => Some (js "undefined")
  | VNull => Some (js "null")
  | VBool b => Some (if b then js "true" else js "false")
  | VNum m e => Some (print_number m e)
  | VStr s => Some s
  | VArr items =>
      join (js ",") <$>
        (fix each (l : list JsValue) : option (list jsstring) :=
           match l with
           | [] => Some []
           | x :: l' =>
               match (match x with
                      | VUndefined | VNull => Some []
                      | _ => to_string x
                      end), each l' with
               | Some a, Some b => Some (a :: b)
               | _, _ => None
               end
           end) items
  | VObj props =>
      if bool_decide (js "toString" ∈ props.*1) then None
      else Some (js "[object Object]")
  end.

Definition upper (c : N) : N :=
  if (97 <=? c)%N && (c <=? 122)%N then (c - 32)%N else c.

#[export] Instance host : Host := {|
  JSON_parse := parse;
  JSON_stringify := stringify;
  ToString := to_string;
  toUpperCase := fmap upper
|}.

End RefHost.

(** ** A sample page *)

(** A document with the elements the script looks up, three content
    sections and three sidebar links, as it is before anyone has logged
    in. *)
Definition element (i : string) (classes : list string) : Element :=
  {| el_id := js i; classList := js <$> classes; href := None;
     display := []; value := []; textContent := []; innerHTML := [] |}.

Definition link (classes : list string) : Element :=
  {| el_id := []; classList := js <$> classes; href := Some (js "#");
     display := []; value := []; textContent := []; innerHTML := [] |}.

Definition sample_document : Document :=
  [ element "authScreen" ["auth-container"];            (* 0 *)
    element "loginForm" [];                             (* 1 *)
    element "loginEmail" [];                            (* 2 *)
    element "loginPassword" [];                         (* 3 *)
    element "loginError" [];                            (* 4 *)
    element "registerForm" [];                          (* 5 *)
    element "registerName" [];                          (* 6 *)
    element "registerEmail" [];                         (* 7 *)
    element "registerPassword" [];                      (* 8 *)
    element "registerUserType" [];                      (* 9 *)
    element "registerError" [];                         (* 10 *)
    element "dashboard" ["dashboard"];                  (* 11 *)
    element "displayUserName" [];                       (* 12 *)
    element "displayUserRole" [];                       (* 13 *)
    element "userInitial" [];                           (* 14 *)
    link ["sidebar-link"; "active"];                    (* 15 *)
    link ["sidebar-link"];                              (* 16 *)
    link ["sidebar-link"];                              (* 17 *)
    element "dashboard-section" ["content-section"; "active"];  (* 18 *)
    element "cases-section" ["content-section"];        (* 19 *)
    element "contracts-section" ["content-section"] ].  (* 20 *)

(** The page when the script has been evaluated: lines 2-29. *)
Definition initial_page (storage : gmap jsstring jsstring) (d : Document) : Page :=
  {| users := initial_users; currentUser := VNull;
     localStorage := storage; document := d |}.

(** Filling in a form control, as the visitor does before submitting. *)
Definition fill (i : string) (v : string) (p : Page) : Page :=
  match getElementById (js i) (document p) with
  | Some n => with_document (alter (set_value (js v)) n) p
  | None => p
  end.

(** The pages on which the handlers are evaluated below. *)
Definition demo_user : User :=
  {| id := 1; name := js "Demo User"; email := js "demo@lawfirm.com";
     password := js "Demo@123"; userType := js "firm"; role := js "Law Firm" |}.

Definition fresh_page : Page := initial_page ∅ sample_document.

Definition login_page : Page :=
  fill "loginEmail" "demo@lawfirm.com" (fill "loginPassword" "Demo@123" fresh_page).

Definition wrong_password_page : Page :=
  fill "loginEmail" "demo@lawfirm.com" (fill "loginPassword" "demo@123" fresh_page).

Definition register_page : Page :=
  fill "registerName" "Ada"
    (fill "registerEmail" "ada@example.com"
       (fill "registerPassword" "secret1"
          (fill "registerUserType" "solo" fresh_page))).

Definition short_password_page : Page :=
  fill "registerName" "Ada"
    (fill "registerEmail" "ada@example.com"
       (fill "registerPassword" "abc"
          (fill "registerUserType" "solo" fresh_page))).

(** The page of a visitor who logged in during an earlier visit. *)
Definition returning_page : Page :=
  initial_page {[ key_currentUser := RefHost.stringify (user_obj demo_user) ]}
    sample_document.

(** Stored text that is JSON for an object with a name and nothing else. *)
Definition guest_text : jsstring :=
  js "{" ++ dq ++ js "name" ++ dq ++ js ":" ++ dq ++ js "Guest" ++ dq ++ js "}".

Definition guest_page : Page :=
  initial_page {[ key_currentUser := guest_text ]} sample_document.

(** Stored text that is not JSON. *)
Definition garbled_page : Page :=
  initial_page {[ key_currentUser := js "{oops" ]} sample_document.

(** ** Observations and well-formedness of the page *)

(** The element that [getElementById] finds. *)
Definition elementById (i : jsstring) (p : Page) : option Element :=
  getElementById i (document p) ≫= λ n, document p !! n.

(** The document has an element for each of the ids. *)
Definition defines (ids : list jsstring) (d : Document) : bool :=
  forallb (λ i, bool_decide (is_Some (getElementById i d))) ids.

(** The ids the script passes to [getElementById]. *)
Definition required_ids : list jsstring :=
  [ js "authScreen"; js "loginForm"; js "loginEmail"; js "loginPassword";
    js "loginError"; js "registerForm"; js "registerName";
    js "registerEmail"; js "registerPassword"; js "registerUserType";
    js "registerError"; js "dashboard"; js "displayUserName";
    js "displayUserRole"; js "userInitial"; js "dashboard-section" ].

(** What the script expects of the HTML shell, which is not among the
    sources: every id it looks up is defined, and the dashboard container
    is neither a content section nor a sidebar link (so that hiding the
    sections does not hide the container). *)
Definition page_ok (d : Document) : bool :=
  defines required_ids d
  && match getElementById (js "dashboard") d ≫= λ n, d !! n with
     | Some e => negb (has_class (js "content-section") e)
                 && negb (has_class (js "sidebar-link") e)
     | None => false
     end.

(** What the script's selectors see of an element, apart from the class
    [active]: its id, whether it is a content section or a sidebar link,
    and its href. *)
Definition selectors (e : Element) : jsstring * bool * bool * option jsstring :=
  (el_id e, has_class (js "content-section") e,
   has_class (js "sidebar-link") e, href e).

(** The document as the selectors see it. *)
Definition skeleton (p : Page) : list (jsstring * bool * bool * option jsstring) :=
  selectors <$> document p.

(** The functions that leave an element as the selectors see it. *)
Class Cosmetic (f : Element → Element) : Prop :=
  cosmetic : ∀ e, selectors (f e) = selectors e.

(** The functions the script applies to an element leave its id alone. *)
Class KeepsId (f : Element → Element) : Prop :=
  keeps_id : ∀ e, el_id (f e) = el_id e.

(** ** The session *)

(** The part of the state that is not the document. *)
Definition session (p : Page) : list User * JsValue * gmap jsstring jsstring :=
  (users p, currentUser p, localStorage p).

(** The session is mirrored into local storage. *)
Definition mirrored `{Host} (p : Page) : Prop :=
  match currentUser p with
  | VNull => localStorage p !! key_currentUser = None
  | v => localStorage p !! key_currentUser = Some (JSON_stringify v)
  end.

(** The session once the record [u] has been made the current user and
    stored. *)
Definition signed_in `{Host} (u : User) (us : list User)
    (storage : gmap jsstring jsstring)
    : list User * JsValue * gmap jsstring jsstring :=
  (us, user_obj u, <[key_currentUser := JSON_stringify (user_obj u)]> storage).

(** A computation that leaves an observation of the state as it found it,
    however it completes. *)
Definition keeps {A B} (g : Page → B) (c : JS A) : Prop :=
  ∀ p, g (c p).2 = g p.

(** ** Sections and the dashboard *)

(** The two [forEach] loops of [showSection]. *)
Definition hide_all (d : Document) : Document :=
  remove_from_all (js "sidebar-link") active
    (remove_from_all (js "content-section") active d).

(** The document after a [showSection] that found its section at [n]. *)
Definition section_shown (n : nat) (linkEl : option nat) (d : Document) : Document :=
  match linkEl with
  | Some l => alter (classList_add active) l
                (alter (classList_add active) n (hide_all d))
  | None => alter (classList_add active) n (hide_all d)
  end.

(** The content sections, respectively sidebar links, that carry the
    class [active]. *)
Definition is_active_section (e : Element) : bool :=
  has_class (js "content-section") e && has_class active e.

Definition is_active_link (e : Element) : bool :=
  has_class (js "sidebar-link") e && has_class active e.

(** The document after a [showDashboard] that found its elements at the
    places [a] (auth screen), [b] (dashboard), [c], [d], [e] (the three
    text fields) and [f] (the dashboard section). *)
Definition dashboard_doc `{Host} (a b c d e f : nat) (nm rl : jsstring)
    (d0 : Document) : Document :=
  section_shown f None
    (alter (set_textContent (toUpperCase (take 1 nm))) e
       (alter (set_textContent rl) d
          (alter (set_textContent nm) c
             (alter (classList_add active) b
                (alter (set_display (js "none")) a d0))))).

(** What the visitor sees once [showDashboard] has run for a user named
    [nm] with the role [rl]. *)
Definition dashboard_shown `{Host} (nm rl : jsstring) (p : Page) : Prop :=
  display <$> elementById (js "authScreen") p = Some (js "none")
  ∧ has_class active <$> elementById (js "dashboard") p = Some true
  ∧ textContent <$> elementById (js "displayUserName") p = Some nm
  ∧ textContent <$> elementById (js "displayUserRole") p = Some rl
  ∧ textContent <$> elementById (js "userInitial") p
    = Some (toUpperCase (take 1 nm))
  ∧ has_class active <$> elementById (js "dashboard-section") p = Some true.

(** The four fields of the registration form hold [nm], [e], [pw], [ut]. *)
Definition register_form (p : Page) (nm e pw ut : jsstring) : Prop :=
  value <$> elementById (js "registerName") p = Some nm
  ∧ value <$> elementById (js "registerEmail") p = Some e
  ∧ value <$> elementById (js "registerPassword") p = Some pw
  ∧ value <$> elementById (js "registerUserType") p = Some ut.

(** ** Stored values *)

Definition is_string (v : JsValue) : bool :=
  match v with VStr _ => true | _ => false end.

Definition is_number (v : JsValue) : bool :=
  match v with VNum _ _ => true | _ => false end.

(** A value that encodes a user record: an object with a numeric [id] and
    the five string properties. *)
Definition is_user_record (v : JsValue) : bool :=
  match v with
  | VObj _ =>
      is_number (ownProp v (js "id"))
      && forallb (λ k, is_string (ownProp v k))
           [js "name"; js "email"; js "password"; js "userType"; js "role"]
  | _ => false
  end.

(** The session has no string [name]: it is [null], not an object, or an
    object whose [name] is missing or not a string. *)
Definition nameless (p : Page) : Prop :=
  is_string (ownProp (currentUser p) (js "name")) = false.

(** From a state satisfying [P], the computation either returns in a state
    satisfying [P] or throws a [TypeError]. *)
Definition type_safe {A} (P : Page → Prop) (c : JS A) : Prop :=
  ∀ p, P p → match c p with
             | (Normal _, p') => P p'
             | (Throw e, _) => e = TypeError
             end.

(** From a state satisfying [P], the computation throws a [TypeError]. *)
Definition raises {A} (P : Page → Prop) (c : JS A) : Prop :=
  ∀ p, P p → (c p).1 = Throw TypeError.

(** ** The life of a page *)

(** What happens to a page after the script has been evaluated: the
    browser fires a handler, or the visitor edits the form control at the
    place [n]. *)
Inductive Action :=
| Fire (h : Handler)
| Enter (n : nat) (v : jsstring).

Definition perform `{Host} (a : Action) (p : Page) : Page :=
  match a with
  | Fire h => (run h p).2
  | Enter n v => with_document (alter (set_value v) n) p
  end.

Definition lifetime `{Host} (l : list Action) (p : Page) : Page :=
  fold_left (λ q a, perform a q) l p.

(** Properties of the user list. *)
Definition distinct_emails (us : list User) : Prop := NoDup (email <$> us).

Definition numbered (us : list User) : Prop :=
  id <$> us = seq 1 (length us).

Definition passwords_long (us : list User) : Prop :=
  Forall (λ u, 6 ≤ length (password u)) us.

Definition roles_consistent (us : list User) : Prop :=
  Forall (λ u, role u = role_of (userType u)) us.

(** What no handler changes of an element: its id, its href and its class
    tokens other than [active]. *)
Definition frame (e : Element) : jsstring * option jsstring * list jsstring :=
  (el_id e, href e, filter (λ c, c ≠ active) (classList e)).

(** An observation of an element that the element functions of the
    script leave alone. *)
Definition untouched {B} (g : Element → B) : Prop :=
  (∀ e, g (classList_add active e) = g e)
  ∧ (∀ e, g (classList_remove active e) = g e)
  ∧ (∀ s e, g (set_display s e) = g e)
  ∧ (∀ s e, g (set_value s e) = g e)
  ∧ (∀ s e, g (set_textContent s e) = g e)
  ∧ (∀ s e, g (set_innerHTML s e) = g e).

(** Two more pages for the evaluations: one whose storage holds the JSON
    text [null], and the login page of a document that lacks the auth
    screen. *)
Definition null_page : Page :=
  initial_page {[ key_currentUser := js "null" ]} sample_document.

Definition headless_page : Page :=
  fill "loginEmail" "demo@lawfirm.com"
    (fill "loginPassword" "Demo@123"
       (initial_page ∅ (drop 1 sample_document))).

(** The page of a visitor whose stored text is the serialization of the
    demo user behind a space: JSON for the same record, but not the text
    [JSON.stringify] gives for it. *)
Definition padded_page : Page :=
  initial_page
    {[ key_currentUser := js " " ++ RefHost.stringify (user_obj demo_user) ]}
    sample_document.

(** The two pages above once the load handler has run. *)
Definition stale_page : Page := (@onLoad RefHost.host padded_page).2.

Definition stale_null_page : Page := (@onLoad RefHost.host null_page).2.

(** The visitor types the demo email with a password in the wrong case,
    the credentials of the second demo user, or a new registration. *)
Definition mistyped (p : Page) : Page :=
  fill "loginEmail" "demo@lawfirm.com" (fill "loginPassword" "demo@123" p).

Definition retyped (p : Page) : Page :=
  fill "loginEmail" "solo@attorney.com" (fill "loginPassword" "Solo@123" p).

Definition signing_up (p : Page) : Page :=
  fill "registerName" "Ada"
    (fill "registerEmail" "ada@example.com"
       (fill "registerPassword" "secret1"
          (fill "registerUserType" "solo" p))).

(** A page whose element [notes-section] is not a content section. *)
Definition plain_page : Page :=
  initial_page ∅
    [ element "notes-section" [];
      element "cases-section" ["content-section"; "active"] ].

(** * Properties *)

Arguments js : simpl never.
Arguments has_class : simpl never.
Arguments ownProp : simpl never.

#[global] Instance classList_add_keeps c : KeepsId (classList_add c).
Proof. by intros e. Qed.
#[global] Instance classList_remove_keeps c : KeepsId (classList_remove c).
Proof. by intros e. Qed.
#[global] Instance set_display_keeps s : KeepsId (set_display s).
Proof. by intros e. Qed.
#[global] Instance set_value_keeps s : KeepsId (set_value s).
Proof. by intros e. Qed.
#[global] Instance set_textContent_keeps s : KeepsId (set_textContent s).
Proof. by intros e. Qed.
#[global] Instance set_innerHTML_keeps s : KeepsId (set_innerHTML s).
Proof. by intros e. Qed.

(** ** Class tokens *)

Lemma has_class_add_same c e : has_class c (classList_add c e) = true.
Proof.
  unfold has_class at 1. apply bool_decide_eq_true.
  unfold classList_add, has_class; simpl.
  destruct (decide (c ∈ classList e)) as [Hc|Hc].
  - by rewrite bool_decide_true.
  - rewrite bool_decide_false by done.
    apply elem_of_app. right. by apply list_elem_of_singleton.
Qed.

Lemma has_class_add_other c c' e :
  c ≠ c' → has_class c' (classList_add c e) = has_class c' e.
Proof.
  intros Hne. unfold has_class at 1 2. apply bool_decide_ext.
  unfold classList_add, has_class; simpl.
  destruct (decide (c ∈ classList e)) as [Hc|Hc].
  - by rewrite bool_decide_true.
  - rewrite bool_decide_false by done.
    rewrite elem_of_app, list_elem_of_singleton.
    split; [|by left]. by intros [?|?].
Qed.

Lemma has_class_remove_same c e : has_class c (classList_remove c e) = false.
Proof.
  unfold has_class, classList_remove; simpl.
  apply bool_decide_eq_false. rewrite list_elem_of_filter. by intros [? _].
Qed.

Lemma has_class_remove_other c c' e :
  c ≠ c' → has_class c' (classList_remove c e) = has_class c' e.
Proof.
  intros Hne. unfold has_class, classList_remove; simpl.
  apply bool_decide_ext. rewrite list_elem_of_filter.
  split; [by intros [_ ?]|]. intros Hin. split; [|done]. by intros ->.
Qed.

Lemma has_class_remove_if_other c t c' e :
  t ≠ c' → has_class c' (remove_if c t e) = has_class c' e.
Proof.
  intros Hne. unfold remove_if. destruct (has_class c e); [|done].
  by apply has_class_remove_other.
Qed.

Lemma has_class_remove_if_same c t e :
  has_class t (remove_if c t e) = has_class t e && negb (has_class c e).
Proof.
  unfold remove_if. destruct (has_class c e) eqn:Hc.
  - rewrite has_class_remove_same. by rewrite andb_false_r.
  - by rewrite andb_true_r.
Qed.

Lemma display_remove_if c t e : display (remove_if c t e) = display e.
Proof. unfold remove_if. by destruct (has_class c e). Qed.

Lemma textContent_remove_if c t e : textContent (remove_if c t e) = textContent e.
Proof. unfold remove_if. by destruct (has_class c e). Qed.

Lemma remove_if_unclassed c t e : has_class c e = false → remove_if c t e = e.
Proof. unfold remove_if. by intros ->. Qed.

(** ** Looking elements up *)

Lemma getElementById_cons i e d :
  getElementById i (e :: d)
  = if decide (el_id e = i) then Some 0 else S <$> getElementById i d.
Proof.
  unfold getElementById. simpl. case_decide; [done|].
  by destruct (list_find _ d) as [[??]|].
Qed.

Lemma getElementById_ids i d d' :
  el_id <$> d = el_id <$> d' → getElementById i d = getElementById i d'.
Proof.
  revert d'. induction d as [|e d IH]; intros [|e' d'] Hids; simplify_eq/=.
  - done.
  - rewrite !getElementById_cons. rewrite (IH d') by done.
    by replace (el_id e') with (el_id e).
Qed.

Lemma ids_alter f `{!KeepsId f} n (d : Document) :
  el_id <$> alter f n d = el_id <$> d.
Proof.
  rewrite (list_fmap_alter el_id f (λ x, x)).
  - by apply list_alter_id.
  - apply Forall_forall. intros e _. apply keeps_id.
Qed.

Lemma ids_remove_from_all c t d :
  el_id <$> remove_from_all c t d = el_id <$> d.
Proof.
  unfold remove_from_all. rewrite <-list_fmap_compose.
  apply list_fmap_ext. intros ? e _. unfold remove_if. simpl.
  by destruct (has_class c e).
Qed.

Lemma getElementById_alter i f `{!KeepsId f} n d :
  getElementById i (alter f n d) = getElementById i d.
Proof. apply getElementById_ids. by apply ids_alter. Qed.

Lemma getElementById_remove_from_all i c t d :
  getElementById i (remove_from_all c t d) = getElementById i d.
Proof. apply getElementById_ids, ids_remove_from_all. Qed.

Lemma getElementById_Some i d n :
  getElementById i d = Some n → ∃ e, d !! n = Some e ∧ el_id e = i.
Proof.
  unfold getElementById. intros Hf.
  destruct (list_find _ d) as [[m e]|] eqn:Hfind; simplify_eq/=.
  apply list_find_Some in Hfind as (? & ? & _). eauto.
Qed.

(** Two ids that differ are found at two places. *)
Lemma getElementById_apart i j d n m :
  getElementById i d = Some n → getElementById j d = Some m → i ≠ j → n ≠ m.
Proof.
  intros (e & He & <-)%getElementById_Some (e' & He' & <-)%getElementById_Some.
  intros Hne ->. congruence.
Qed.

Lemma elementById_Some i p n e :
  getElementById i (document p) = Some n → document p !! n = Some e →
  elementById i p = Some e.
Proof. unfold elementById. by intros -> ?. Qed.

(** ** Running the primitives *)

Lemma bind_Normal {A B} (c : JS A) (k : A → JS B) p a p' :
  c p = (Normal a, p') → bind c k p = k a p'.
Proof. unfold bind. by intros ->. Qed.

Lemma bind_Throw {A B} (c : JS A) (k : A → JS B) p e p' :
  c p = (Throw e, p') → bind c k p = (Throw e, p').
Proof. unfold bind. by intros ->. Qed.

Lemma assignById_found i f p n :
  getElementById i (document p) = Some n →
  assignById i f p = (Normal tt, with_document (alter f n) p).
Proof. intros Hn. unfold assignById, bind, lookupElement, gets. by rewrite Hn. Qed.

Lemma assignById_missing i f p :
  getElementById i (document p) = None →
  assignById i f p = (Throw TypeError, p).
Proof. intros Hn. unfold assignById, bind, lookupElement, gets. by rewrite Hn. Qed.

Lemma getValue_run i p :
  getValue i p = match elementById i p with
                 | Some e => (Normal (value e), p)
                 | None => (Throw TypeError, p)
                 end.
Proof.
  unfold getValue, elementById, bind, lookupElement, gets.
  destruct (getElementById i (document p)) as [n|] eqn:Hn; simpl; [|done].
  unfold readElement. by destruct (document p !! n).
Qed.

(** ** What a well-formed page provides *)

Lemma defines_Some ids d i :
  defines ids d = true → In i ids →
  ∃ n e, getElementById i d = Some n ∧ d !! n = Some e.
Proof.
  unfold defines. intros Hids Hin.
  rewrite forallb_forall in Hids. specialize (Hids i Hin).
  apply bool_decide_eq_true in Hids as [n Hn].
  destruct (getElementById_Some _ _ _ Hn) as (e & He & _). eauto.
Qed.

Lemma page_ok_defines d i :
  page_ok d = true → In i required_ids →
  ∃ n e, getElementById i d = Some n ∧ d !! n = Some e.
Proof.
  unfold page_ok. intros [Hids _]%andb_true_iff. by apply defines_Some.
Qed.

Lemma page_ok_dashboard d n e :
  page_ok d = true → getElementById (js "dashboard") d = Some n →
  d !! n = Some e →
  has_class (js "content-section") e = false
  ∧ has_class (js "sidebar-link") e = false.
Proof.
  unfold page_ok. intros [_ Hd]%andb_true_iff Hn He.
  rewrite Hn in Hd. simpl in Hd. rewrite He in Hd.
  apply andb_true_iff in Hd as [?%negb_true_iff ?%negb_true_iff]. done.
Qed.

Ltac in_required := unfold required_ids; simpl; tauto.

(** [defined H i n e]: the element [e] at place [n] that a well-formed
    page has for the id [i]. *)
Ltac defined Hok i n e :=
  let Hn := fresh "H" n in
  let He := fresh "H" e in
  first
    [ destruct (page_ok_defines _ (js i) Hok ltac:(in_required))
        as (n & e & Hn & He)
    | destruct (defines_Some _ _ (js i) Hok ltac:(simpl; tauto))
        as (n & e & Hn & He) ].

Ltac js_neq :=
  let H := fresh in intros H; vm_compute in H; discriminate H.

Ltac apart :=
  eapply getElementById_apart; [eassumption | eassumption | js_neq].

(** Reading an element of a document the script has written to. *)
Ltac lookup_through :=
  repeat first
    [ rewrite list_lookup_alter_eq
    | rewrite list_lookup_alter_ne by apart
    | rewrite list_lookup_fmap ].

Ltac fields :=
  cbn [users currentUser localStorage document
       with_users with_currentUser with_localStorage with_document].

(** Looking an id up in a document the script has written to. *)
Ltac relookup :=
  fields;
  repeat first [ rewrite getElementById_alter by apply _
               | rewrite getElementById_remove_from_all ].

Ltac observe :=
  unfold elementById; relookup;
  repeat match goal with
         | H : getElementById ?i _ = Some _ |- context [getElementById ?i _] =>
             rewrite H
         end;
  simpl mbind; lookup_through.

(** The next statement of the handler is an assignment to the element
    with a known place. *)
Ltac assign Hplace :=
  first
    [ erewrite (bind_Normal (assignById _ _))
        by (apply assignById_found; relookup; exact Hplace)
    | erewrite assignById_found by (relookup; exact Hplace) ].

Section Logout.
Context `{Host}.

(** C7. [handleLogout] establishes the logged-out state whatever the state
    before: on a page that has the four elements it names, it returns, and
    afterwards [currentUser] is [null], the stored [currentUser] entry is
    gone, the dashboard has lost the class [active], the auth screen is
    displayed as [flex] and the two login fields are empty. *)
Theorem handleLogout_logs_out (p : Page) :
  defines [js "dashboard"; js "authScreen"; js "loginEmail";
           js "loginPassword"] (document p) = true →
  let r := handleLogout p in
  r.1 = Normal tt
  ∧ currentUser r.2 = VNull
  ∧ localStorage r.2 !! key_currentUser = None
  ∧ has_class active <$> elementById (js "dashboard") r.2 = Some false
  ∧ display <$> elementById (js "authScreen") r.2 = Some (js "flex")
  ∧ value <$> elementById (js "loginEmail") r.2 = Some []
  ∧ value <$> elementById (js "loginPassword") r.2 = Some [].
Proof.
  intros Hok.
  defined Hok "dashboard" nd ed. defined Hok "authScreen" na ea.
  defined Hok "loginEmail" ne ee. defined Hok "loginPassword" np ep.
  unfold handleLogout.
  do 2 (erewrite bind_Normal by reflexivity).
  assign Hnd. assign Hna. assign Hne. assign Hnp.
  cbn [fst snd]. split_and!.
  - done.
  - done.
  - fields. apply lookup_delete_eq.
  - observe. rewrite Hed. simpl. by rewrite has_class_remove_same.
  - observe. by rewrite Hea.
  - observe. by rewrite Hee.
  - observe. by rewrite Hep.
Qed.

End Logout.

(** ** Section navigation *)

Lemma dashboard_section_id : js "dashboard" ++ js "-section" = js "dashboard-section".
Proof. reflexivity. Qed.

Lemma showSection_found s l p n :
  getElementById (s ++ js "-section") (document p) = Some n →
  showSection s l p = (Normal tt, with_document (section_shown n l) p).
Proof.
  intros Hn. unfold showSection.
  do 2 (erewrite bind_Normal by reflexivity).
  erewrite (bind_Normal (assignById _ _))
    by (apply assignById_found; relookup; exact Hn).
  by destruct l.
Qed.

Lemma showSection_missing s l p :
  getElementById (s ++ js "-section") (document p) = None →
  showSection s l p = (Throw TypeError, with_document hide_all p).
Proof.
  intros Hn. unfold showSection.
  do 2 (erewrite bind_Normal by reflexivity).
  erewrite (bind_Throw (assignById _ _))
    by (apply assignById_missing; relookup; exact Hn).
  done.
Qed.

(** The element at a place of the document that [showSection] leaves. *)
Lemma section_shown_lookup n l d m :
  section_shown n l d !! m
  = (λ e, let e1 := remove_if (js "sidebar-link") active
                      (remove_if (js "content-section") active e) in
          let e2 := if decide (n = m) then classList_add active e1 else e1 in
          if decide (l = Some m) then classList_add active e2 else e2)
    <$> d !! m.
Proof.
  unfold section_shown, hide_all, remove_from_all.
  destruct l as [k|]; rewrite ?list_lookup_alter, ?list_lookup_fmap;
    repeat case_decide; simplify_eq; rewrite ?list_lookup_fmap;
    destruct (d !! m); simpl; congruence.
Qed.

Lemma getElementById_ids_section_shown i n l d :
  getElementById i (section_shown n l d) = getElementById i d.
Proof.
  unfold section_shown, hide_all.
  destruct l; rewrite ?getElementById_alter by apply _;
    by rewrite !getElementById_remove_from_all.
Qed.

(** After the two loops of [showSection] no content section and no
    sidebar link carries the class [active]. *)
Lemma hide_all_inactive d m el :
  hide_all d !! m = Some el →
  is_active_section el = false ∧ is_active_link el = false.
Proof.
  unfold hide_all, remove_from_all. rewrite !list_lookup_fmap.
  destruct (d !! m) as [e|]; [|done]. simpl. intros [= <-].
  assert (Hac : active ≠ js "content-section") by js_neq.
  assert (Has : active ≠ js "sidebar-link") by js_neq.
  unfold is_active_section, is_active_link.
  rewrite !has_class_remove_if_other by done.
  rewrite !has_class_remove_if_same.
  rewrite !has_class_remove_if_other by done.
  by destruct (has_class (js "content-section") e),
              (has_class (js "sidebar-link") e), (has_class active e).
Qed.

(** The classes of an element that [showSection] leaves, other than
    [active], are those it had. *)
Lemma section_shown_class c n l d m e el :
  active ≠ c → d !! m = Some e → section_shown n l d !! m = Some el →
  has_class c el = has_class c e.
Proof.
  intros Hc He. rewrite section_shown_lookup, He. simpl. intros [= <-].
  destruct (decide (n = m)), (decide (l = Some m));
    rewrite ?has_class_add_other by done;
    by rewrite !has_class_remove_if_other by done.
Qed.

(** C8, as amended.  What [showSection] leaves depends on the element
    with the id [sectionId + '-section'], which it does not check.
    - When that element is a content section and not a sidebar link, and
      [linkEl] is absent or is not a content section, the call returns
      and afterwards a content section carries the class [active] exactly
      when it is that element, and a sidebar link that carries it is
      [linkEl].
    - When no element has that id, the call throws a [TypeError] after
      its two loops have run: no content section and no sidebar link
      carries the class [active] afterwards.
    - When that element exists and is not a content section (and [linkEl]
      is absent or is not a content section), the call returns and no
      content section carries the class [active] afterwards. *)
Theorem showSection_one_active (p : Page) (sectionId : jsstring)
    (linkEl : option nat) :
  (∀ n e,
     getElementById (sectionId ++ js "-section") (document p) = Some n →
     document p !! n = Some e →
     has_class (js "content-section") e = true →
     has_class (js "sidebar-link") e = false →
     (∀ l el, linkEl = Some l → document p !! l = Some el →
              has_class (js "content-section") el = false) →
     ∃ p', showSection sectionId linkEl p = (Normal tt, p')
       ∧ (∃ e', document p' !! n = Some e' ∧ is_active_section e' = true)
       ∧ (∀ m el, document p' !! m = Some el →
                  is_active_section el = true → m = n)
       ∧ (∀ m el, document p' !! m = Some el →
                  is_active_link el = true → linkEl = Some m))
  ∧ (getElementById (sectionId ++ js "-section") (document p) = None →
     ∃ p', showSection sectionId linkEl p = (Throw TypeError, p')
       ∧ ∀ m el, document p' !! m = Some el →
                 is_active_section el = false ∧ is_active_link el = false)
  ∧ (∀ n e,
       getElementById (sectionId ++ js "-section") (document p) = Some n →
       document p !! n = Some e →
       has_class (js "content-section") e = false →
       (∀ l el, linkEl = Some l → document p !! l = Some el →
                has_class (js "content-section") el = false) →
       ∃ p', showSection sectionId linkEl p = (Normal tt, p')
         ∧ ∀ m el, document p' !! m = Some el →
                   is_active_section el = false).
Proof.
  assert (Hac : active ≠ js "content-section") by js_neq.
  assert (Has : active ≠ js "sidebar-link") by js_neq.
  split_and!.
  - intros n e Hn He Hcs Hsl Hlink.
    eexists. split; [by apply showSection_found|].
    fields. unfold is_active_section, is_active_link. split_and!.
    + rewrite section_shown_lookup, He. simpl. eexists; split; [done|].
      destruct (decide (n = n)); [|done].
      destruct (decide (linkEl = Some n));
        rewrite has_class_add_same, !has_class_add_other by done;
        by rewrite !has_class_remove_if_other, Hcs by done.
    + intros m el. rewrite section_shown_lookup.
      destruct (document p !! m) as [e0|] eqn:He0; [|done]. simpl.
      intros [= <-] [Hc Ha]%andb_true_iff.
      destruct (decide (n = m)) as [|Hnm]; [done|].
      destruct (decide (linkEl = Some m)) as [->|Hl].
      * rewrite has_class_add_other, !has_class_remove_if_other in Hc by done.
        by rewrite (Hlink m e0) in Hc.
      * rewrite !has_class_remove_if_other in Hc by done.
        rewrite !has_class_remove_if_same, Hc in Ha.
        by destruct (has_class active e0), (has_class _ _).
    + intros m el. rewrite section_shown_lookup.
      destruct (document p !! m) as [e0|] eqn:He0; [|done]. simpl.
      intros [= <-] [Hc Ha]%andb_true_iff.
      destruct (decide (linkEl = Some m)) as [|Hl]; [done|]. exfalso.
      destruct (decide (n = m)) as [<-|Hnm].
      * rewrite has_class_add_other, !has_class_remove_if_other in Hc by done.
        congruence.
      * rewrite !has_class_remove_if_other in Hc by done.
        rewrite has_class_remove_if_same in Ha.
        rewrite (has_class_remove_if_other _ _ (js "sidebar-link")), Hc in Ha
          by done.
        by rewrite andb_false_r in Ha.
  - intros Hn. eexists. split; [by apply showSection_missing|].
    intros m el. fields. apply hide_all_inactive.
  - intros n e Hn He Hcs Hlink.
    eexists. split; [by apply showSection_found|].
    fields. intros m el Hel. unfold is_active_section.
    pose proof Hel as Hx. rewrite section_shown_lookup in Hx.
    destruct (document p !! m) as [e0|] eqn:He0; [|done].
    rewrite (section_shown_class (js "content-section") n linkEl
               (document p) m e0 el) by done.
    simpl in Hx. injection Hx as Hx.
    destruct (decide (n = m)) as [<-|Hnm].
    { replace e0 with e by congruence. by rewrite Hcs. }
    destruct (decide (linkEl = Some m)) as [Hl|Hl].
    { by rewrite (Hlink m e0 Hl He0). }
    rewrite <-Hx, !has_class_remove_if_same.
    by destruct (has_class (js "content-section") e0), (has_class active e0).
Qed.

(** ** Showing the dashboard *)

(** The fields of an element the script has written to. *)
Ltac settle :=
  repeat case_decide; simplify_eq;
  cbn [display textContent value set_display set_textContent set_value
       classList_add classList_remove set_innerHTML];
  rewrite ?display_remove_if, ?textContent_remove_if;
  cbn [display textContent value set_display set_textContent set_value
       classList_add classList_remove set_innerHTML];
  try done.

Section Dashboard.
Context `{Host}.

Lemma showDashboard_run p a b c d e f props nm rl :
  getElementById (js "authScreen") (document p) = Some a →
  getElementById (js "dashboard") (document p) = Some b →
  getElementById (js "displayUserName") (document p) = Some c →
  getElementById (js "displayUserRole") (document p) = Some d →
  getElementById (js "userInitial") (document p) = Some e →
  getElementById (js "dashboard-section") (document p) = Some f →
  currentUser p = VObj props →
  ownProp (VObj props) (js "name") = VStr nm →
  ownProp (VObj props) (js "role") = VStr rl →
  showDashboard p
  = (Normal tt, with_document (dashboard_doc a b c d e f nm rl) p).
Proof.
  intros Ha Hb Hc Hd He Hf Hcu Hnm Hrl. unfold showDashboard.
  assign Ha. assign Hb.
  erewrite bind_Normal by reflexivity. fields. rewrite Hcu.
  erewrite bind_Normal by reflexivity. rewrite Hnm.
  erewrite bind_Normal by reflexivity. assign Hc.
  erewrite bind_Normal by reflexivity. fields. rewrite Hcu.
  erewrite bind_Normal by reflexivity. rewrite Hrl.
  erewrite bind_Normal by reflexivity. assign Hd.
  erewrite bind_Normal by reflexivity. fields. rewrite Hcu.
  erewrite bind_Normal by reflexivity. rewrite Hnm.
  erewrite bind_Normal by reflexivity. assign He.
  rewrite (showSection_found _ _ _ f)
    by (rewrite dashboard_section_id; relookup; exact Hf).
  done.
Qed.

Lemma dashboard_doc_shown p a b c d e f nm rl :
  page_ok (document p) = true →
  getElementById (js "authScreen") (document p) = Some a →
  getElementById (js "dashboard") (document p) = Some b →
  getElementById (js "displayUserName") (document p) = Some c →
  getElementById (js "displayUserRole") (document p) = Some d →
  getElementById (js "userInitial") (document p) = Some e →
  getElementById (js "dashboard-section") (document p) = Some f →
  dashboard_shown nm rl (with_document (dashboard_doc a b c d e f nm rl) p).
Proof.
  intros Hok Ha Hb Hc Hd He Hf.
  destruct (getElementById_Some _ _ _ Ha) as (ea & Hea & _).
  destruct (getElementById_Some _ _ _ Hb) as (eb & Heb & _).
  destruct (getElementById_Some _ _ _ Hc) as (ec & Hec & _).
  destruct (getElementById_Some _ _ _ Hd) as (ed & Hed & _).
  destruct (getElementById_Some _ _ _ He) as (ee & Hee & _).
  destruct (getElementById_Some _ _ _ Hf) as (ef & Hef & _).
  destruct (page_ok_dashboard _ _ _ Hok Hb Heb) as [Hcs Hsl].
  assert (Hac : active ≠ js "content-section") by js_neq.
  assert (Has : active ≠ js "sidebar-link") by js_neq.
  unfold dashboard_shown, dashboard_doc, elementById, section_shown, hide_all.
  relookup. rewrite Ha, Hb, Hc, Hd, He, Hf. simpl mbind.
  unfold remove_from_all. lookup_through.
  rewrite Hea, Heb, Hec, Hed, Hee, Hef. simpl.
  split_and!; f_equal.
  - settle.
  - rewrite (remove_if_unclassed (js "content-section"))
      by (by rewrite has_class_add_other).
    rewrite remove_if_unclassed by (by rewrite has_class_add_other).
    by rewrite has_class_add_same.
  - settle.
  - settle.
  - settle.
  - by rewrite has_class_add_same.
Qed.

End Dashboard.

(** ** Logging in *)

Lemma ownProp_user_name u : ownProp (user_obj u) (js "name") = VStr (name u).
Proof. reflexivity. Qed.

Lemma ownProp_user_role u : ownProp (user_obj u) (js "role") = VStr (role u).
Proof. reflexivity. Qed.

Lemma field_Some {A} (g : Element → A) i p x :
  g <$> elementById i p = Some x → ∃ el, elementById i p = Some el ∧ g el = x.
Proof. destruct (elementById i p) as [el|]; intros [= <-]; eauto. Qed.

Lemma credentials_match_spec e pw u :
  credentials_match e pw u = true ↔ email u = e ∧ password u = pw.
Proof.
  unfold credentials_match.
  by rewrite andb_true_iff, !bool_decide_eq_true.
Qed.

Lemma find_credentials_None e pw us :
  find (credentials_match e pw) us = None
  ↔ ∀ u, u ∈ us → ¬ (email u = e ∧ password u = pw).
Proof.
  split.
  - intros Hnone u Hu%list_elem_of_In Hm%credentials_match_spec.
    pose proof (find_none _ _ Hnone u Hu). congruence.
  - intros Hno. destruct (find _ us) as [u|] eqn:Hfind; [|done].
    apply find_some in Hfind as [Hu%list_elem_of_In Hm%credentials_match_spec].
    by destruct (Hno u).
Qed.

Section Login.
Context `{Host}.

Lemma handleLogin_no_match p e pw n :
  value <$> elementById (js "loginEmail") p = Some e →
  value <$> elementById (js "loginPassword") p = Some pw →
  getElementById (js "loginError") (document p) = Some n →
  find (credentials_match e pw) (users p) = None →
  handleLogin p
  = (Normal tt,
     with_document (alter (set_innerHTML msg_invalid_credentials) n) p).
Proof.
  intros (el & Hel & <-)%field_Some (pl & Hpl & <-)%field_Some Hn Hfind.
  unfold handleLogin.
  erewrite bind_Normal by (rewrite getValue_run, Hel; reflexivity).
  erewrite bind_Normal by (rewrite getValue_run, Hpl; reflexivity).
  do 2 (erewrite bind_Normal by reflexivity).
  rewrite Hfind, Hn. reflexivity.
Qed.

Lemma handleLogin_match p e pw u a b c d f g :
  value <$> elementById (js "loginEmail") p = Some e →
  value <$> elementById (js "loginPassword") p = Some pw →
  find (credentials_match e pw) (users p) = Some u →
  getElementById (js "authScreen") (document p) = Some a →
  getElementById (js "dashboard") (document p) = Some b →
  getElementById (js "displayUserName") (document p) = Some c →
  getElementById (js "displayUserRole") (document p) = Some d →
  getElementById (js "userInitial") (document p) = Some f →
  getElementById (js "dashboard-section") (document p) = Some g →
  handleLogin p
  = (Normal tt,
     with_document (dashboard_doc a b c d f g (name u) (role u))
       (with_localStorage
          (insert key_currentUser (JSON_stringify (user_obj u)))
          (with_currentUser (user_obj u) p))).
Proof.
  intros (el & Hel & <-)%field_Some (pl & Hpl & <-)%field_Some Hfind.
  intros Ha Hb Hc Hd Hf Hg.
  unfold handleLogin.
  erewrite bind_Normal by (rewrite getValue_run, Hel; reflexivity).
  erewrite bind_Normal by (rewrite getValue_run, Hpl; reflexivity).
  do 2 (erewrite bind_Normal by reflexivity).
  rewrite Hfind.
  do 2 (erewrite bind_Normal by reflexivity).
  by apply showDashboard_run with (props := match user_obj u with
                                            | VObj l => l
                                            | _ => []
                                            end).
Qed.

(** C1. For the email and the password in the two login fields,
    [handleLogin] succeeds exactly when a record of [users] has that email
    and that password: if there is one, [currentUser] becomes such a
    record, its serialization is stored under [currentUser] and the
    dashboard is shown; if there is none, the invalid-credentials message
    is put in the error element and neither the session, nor the stored
    entry, nor the dashboard's visibility is touched. *)
Theorem handleLogin_succeeds_iff_match (p : Page) (e pw : jsstring) :
  page_ok (document p) = true →
  value <$> elementById (js "loginEmail") p = Some e →
  value <$> elementById (js "loginPassword") p = Some pw →
  ∃ p', handleLogin p = (Normal tt, p')
    ∧ ((∃ u, u ∈ users p ∧ email u = e ∧ password u = pw) →
       ∃ u, u ∈ users p ∧ email u = e ∧ password u = pw
            ∧ currentUser p' = user_obj u
            ∧ localStorage p' !! key_currentUser
              = Some (JSON_stringify (user_obj u))
            ∧ dashboard_shown (name u) (role u) p')
    ∧ (¬ (∃ u, u ∈ users p ∧ email u = e ∧ password u = pw) →
       innerHTML <$> elementById (js "loginError") p'
       = Some msg_invalid_credentials
       ∧ currentUser p' = currentUser p
       ∧ localStorage p' = localStorage p
       ∧ elementById (js "dashboard") p' = elementById (js "dashboard") p
       ∧ elementById (js "authScreen") p' = elementById (js "authScreen") p).
Proof.
  intros Hok He Hpw.
  defined Hok "authScreen" a ea. defined Hok "dashboard" b eb.
  defined Hok "displayUserName" c ec. defined Hok "displayUserRole" d ed.
  defined Hok "userInitial" f ef. defined Hok "dashboard-section" g eg.
  defined Hok "loginError" n en.
  destruct (find (credentials_match e pw) (users p)) as [u|] eqn:Hfind.
  - eexists. split; [by eapply handleLogin_match|].
    apply find_some in Hfind as [Hu%list_elem_of_In [??]%credentials_match_spec].
    split.
    + intros _. exists u. split_and!; try done.
      * fields. apply lookup_insert_eq.
      * by apply (dashboard_doc_shown
                    (with_localStorage _ (with_currentUser _ p))).
    + intros []. eauto.
  - eexists. split; [by eapply handleLogin_no_match|].
    pose proof (proj1 (find_credentials_None _ _ _) Hfind) as Hno.
    split.
    + intros (u & Hu & Hm). by destruct (Hno u).
    + intros _. split_and!; try done.
      * observe. by rewrite Hen.
      * by observe.
      * by observe.
Qed.

(** C3. When no record of [users] has the submitted email and password,
    [handleLogin] writes the error message into the error element (which
    the page is to have) and nothing else: [users], [currentUser] and
    local storage are as they were. *)
Theorem handleLogin_failure_changes_nothing (p : Page) (e pw : jsstring) :
  defines [js "loginError"] (document p) = true →
  value <$> elementById (js "loginEmail") p = Some e →
  value <$> elementById (js "loginPassword") p = Some pw →
  (∀ u, u ∈ users p → ¬ (email u = e ∧ password u = pw)) →
  ∃ n p', getElementById (js "loginError") (document p) = Some n
    ∧ handleLogin p = (Normal tt, p')
    ∧ document p' = alter (set_innerHTML msg_invalid_credentials) n (document p)
    ∧ users p' = users p
    ∧ currentUser p' = currentUser p
    ∧ localStorage p' = localStorage p.
Proof.
  intros Hok He Hpw Hno.
  defined Hok "loginError" n en.
  apply find_credentials_None in Hno.
  exists n. eexists. split; [done|].
  split; [by eapply handleLogin_no_match|]. done.
Qed.

End Login.

(** ** What the DOM operations leave alone *)

Lemma keeps_ret {A B} (g : Page → B) (a : A) : keeps g (ret a).
Proof. by intros p. Qed.

Lemma keeps_throw {A B} (g : Page → B) e : keeps g (throw (A:=A) e).
Proof. by intros p. Qed.

Lemma keeps_gets {A B} (g : Page → B) (f : Page → A) : keeps g (gets f).
Proof. by intros p. Qed.

Lemma keeps_modify {B} (g : Page → B) f :
  (∀ p, g (f p) = g p) → keeps g (modify f).
Proof. intros Hf p. apply Hf. Qed.

Lemma keeps_bind {A B C} (g : Page → C) (c : JS A) (k : A → JS B) :
  keeps g c → (∀ a, keeps g (k a)) → keeps g (bind c k).
Proof.
  intros Hc Hk p. unfold bind. specialize (Hc p).
  destruct (c p) as [[a|e] p1]; simpl in *; [|done].
  by rewrite Hk.
Qed.

Lemma keeps_session_users {A} (c : JS A) : keeps session c → keeps users c.
Proof. intros Hc p. specialize (Hc p). unfold session in Hc. congruence. Qed.

Ltac keeps_step :=
  first
    [ apply keeps_ret | apply keeps_throw | apply keeps_gets
    | apply keeps_modify; intros ?; reflexivity
    | apply keeps_bind; [|intros ?]
    | assumption ].

Lemma keeps_deref {B} (g : Page → B) h : keeps g (deref h).
Proof. destruct h; keeps_step. Qed.

Lemma keeps_readElement {A B} (g : Page → B) n (f : Element → A) :
  keeps g (readElement n f).
Proof. intros p. unfold readElement. by destruct (document p !! n). Qed.

Lemma keeps_getValue {B} (g : Page → B) i : keeps g (getValue i).
Proof.
  unfold getValue, lookupElement. repeat keeps_step.
  - apply keeps_deref.
  - apply keeps_readElement.
Qed.

Lemma keeps_getProp {B} (g : Page → B) v k : keeps g (getProp v k).
Proof. destruct v; keeps_step. Qed.

Lemma keeps_textOf `{Host} {B} (g : Page → B) v : keeps g (textOf v).
Proof. destruct v; simpl; try keeps_step; destruct (ToString _); keeps_step. Qed.

Lemma keeps_initialOf `{Host} {B} (g : Page → B) v : keeps g (initialOf v).
Proof. destruct v; keeps_step. Qed.

Lemma keeps_session_assignById i f : keeps session (assignById i f).
Proof.
  unfold assignById, lookupElement, writeElement. repeat keeps_step.
  apply keeps_deref.
Qed.

Lemma keeps_session_writeElement n f : keeps session (writeElement n f).
Proof. unfold writeElement. keeps_step. Qed.

Lemma keeps_session_showSection s l : keeps session (showSection s l).
Proof.
  unfold showSection.
  repeat first [ apply keeps_session_assignById | keeps_step ].
  destruct l; [apply keeps_session_writeElement | keeps_step].
Qed.

Ltac keeps_dom :=
  repeat first
    [ apply keeps_session_showSection
    | apply keeps_session_assignById | apply keeps_session_writeElement
    | apply keeps_getValue | apply keeps_deref
    | apply keeps_getProp | apply keeps_textOf | apply keeps_initialOf
    | keeps_step ].

Lemma keeps_session_showDashboard `{Host} : keeps session showDashboard.
Proof.
  unfold showDashboard.
  repeat first [ apply keeps_session_showSection | progress keeps_dom ].
Qed.

(** ** Registering *)

Lemma find_email_None e us :
  find (λ u, bool_decide (email u = e)) us = None
  ↔ ∀ u, u ∈ us → email u ≠ e.
Proof.
  split.
  - intros Hnone u Hu%list_elem_of_In He.
    pose proof (find_none _ _ Hnone u Hu) as Hf. simpl in Hf.
    by rewrite bool_decide_true in Hf.
  - intros Hno. destruct (find _ us) as [u|] eqn:Hfind; [|done].
    apply find_some in Hfind as [Hu%list_elem_of_In Hm%bool_decide_eq_true].
    by destruct (Hno u).
Qed.

Lemma role_of_spec ut :
  (ut = js "firm" → role_of ut = js "Law Firm")
  ∧ (ut = js "solo" → role_of ut = js "Solo Practitioner")
  ∧ (ut ≠ js "firm" → ut ≠ js "solo" → role_of ut = js "In-House Counsel").
Proof.
  unfold role_of. split_and!.
  - intros ->. by rewrite decide_True.
  - intros ->. rewrite decide_False by js_neq. by rewrite decide_True.
  - intros ??. by rewrite !decide_False.
Qed.

Section Register.
Context `{Host}.

Lemma handleRegister_prefix p nm e pw ut (k : jsstring → jsstring → jsstring → jsstring → JS unit) :
  register_form p nm e pw ut →
  (n0 <- getValue (js "registerName") ;;
   e0 <- getValue (js "registerEmail") ;;
   p0 <- getValue (js "registerPassword") ;;
   u0 <- getValue (js "registerUserType") ;;
   k n0 e0 p0 u0)%js p = k nm e pw ut p.
Proof.
  intros ((? & H1 & <-)%field_Some & (? & H2 & <-)%field_Some
          & (? & H3 & <-)%field_Some & (? & H4 & <-)%field_Some).
  erewrite bind_Normal by (rewrite getValue_run, H1; reflexivity).
  erewrite bind_Normal by (rewrite getValue_run, H2; reflexivity).
  erewrite bind_Normal by (rewrite getValue_run, H3; reflexivity).
  erewrite bind_Normal by (rewrite getValue_run, H4; reflexivity).
  done.
Qed.

Lemma handleRegister_short p nm e pw ut n :
  register_form p nm e pw ut →
  getElementById (js "registerError") (document p) = Some n →
  length pw < 6 →
  handleRegister p
  = (Normal tt,
     with_document (alter (set_innerHTML msg_password_too_short) n) p).
Proof.
  intros Hform Hn Hlen. unfold handleRegister.
  rewrite (handleRegister_prefix p nm e pw ut) by done.
  erewrite bind_Normal by reflexivity.
  rewrite decide_True by done. by rewrite Hn.
Qed.

Lemma handleRegister_taken p nm e pw ut n u :
  register_form p nm e pw ut →
  getElementById (js "registerError") (document p) = Some n →
  ¬ length pw < 6 →
  find (λ u, bool_decide (email u = e)) (users p) = Some u →
  handleRegister p
  = (Normal tt,
     with_document (alter (set_innerHTML msg_email_registered) n) p).
Proof.
  intros Hform Hn Hlen Hfind. unfold handleRegister.
  rewrite (handleRegister_prefix p nm e pw ut) by done.
  erewrite bind_Normal by reflexivity.
  rewrite decide_False by done.
  erewrite bind_Normal by reflexivity.
  by rewrite Hfind, Hn.
Qed.

Lemma handleRegister_fresh p nm e pw ut a b c d f g :
  register_form p nm e pw ut →
  ¬ length pw < 6 →
  find (λ u, bool_decide (email u = e)) (users p) = None →
  getElementById (js "authScreen") (document p) = Some a →
  getElementById (js "dashboard") (document p) = Some b →
  getElementById (js "displayUserName") (document p) = Some c →
  getElementById (js "displayUserRole") (document p) = Some d →
  getElementById (js "userInitial") (document p) = Some f →
  getElementById (js "dashboard-section") (document p) = Some g →
  let nu := newUser (users p) nm e pw ut in
  handleRegister p
  = (Normal tt,
     with_document (dashboard_doc a b c d f g nm (role_of ut))
       (with_localStorage
          (insert key_currentUser (JSON_stringify (user_obj nu)))
          (with_currentUser (user_obj nu)
             (with_users (λ l, l ++ [nu]) p)))).
Proof.
  intros Hform Hlen Hfind Ha Hb Hc Hd Hf Hg nu. unfold handleRegister.
  rewrite (handleRegister_prefix p nm e pw ut) by done.
  erewrite bind_Normal by reflexivity.
  rewrite decide_False by done.
  erewrite bind_Normal by reflexivity.
  rewrite Hfind.
  do 3 (erewrite bind_Normal by reflexivity).
  by apply showDashboard_run with (props := match user_obj nu with
                                            | VObj l => l
                                            | _ => []
                                            end).
Qed.

(** C9. [handleRegister] rejects the request exactly when the password
    has fewer than 6 characters or a record of [users] already has the
    submitted email.  A rejected request leaves [users], [currentUser]
    and local storage as they were and puts the message of its case in
    the error element (the password message when both apply); a request
    that is not rejected changes the state: it extends [users]. *)
Theorem handleRegister_rejects_iff (p : Page) (nm e pw ut : jsstring) :
  page_ok (document p) = true →
  register_form p nm e pw ut →
  ∃ p', handleRegister p = (Normal tt, p')
    ∧ (length pw < 6 ∨ (∃ u, u ∈ users p ∧ email u = e) →
       users p' = users p
       ∧ currentUser p' = currentUser p
       ∧ localStorage p' = localStorage p
       ∧ innerHTML <$> elementById (js "registerError") p'
         = Some (if decide (length pw < 6) then msg_password_too_short
                 else msg_email_registered))
    ∧ (¬ (length pw < 6 ∨ (∃ u, u ∈ users p ∧ email u = e)) →
       users p' ≠ users p).
Proof.
  intros Hok Hform.
  defined Hok "authScreen" a ea. defined Hok "dashboard" b eb.
  defined Hok "displayUserName" c ec. defined Hok "displayUserRole" d ed.
  defined Hok "userInitial" f ef. defined Hok "dashboard-section" g eg.
  defined Hok "registerError" n en.
  destruct (decide (length pw < 6)) as [Hlen|Hlen].
  { eexists. split; [by eapply handleRegister_short|]. split.
    - intros _. split_and!; try done. observe. by rewrite Hen.
    - intros []. by left. }
  destruct (find (λ u, bool_decide (email u = e)) (users p)) as [u|] eqn:Hfind.
  - eexists. split; [by eapply handleRegister_taken|]. split.
    + intros _. split_and!; try done. observe. by rewrite Hen.
    + intros []. right.
      apply find_some in Hfind as [Hu%list_elem_of_In Hm%bool_decide_eq_true].
      eauto.
  - eexists. split; [by eapply handleRegister_fresh|]. split.
    + intros [?|(u & Hu & He)]; [done|].
      by destruct (proj1 (find_email_None _ _) Hfind u).
    + intros _. fields. intros Heq.
      apply (f_equal length) in Heq. rewrite length_app in Heq.
      simpl in Heq. lia.
Qed.

(** C10. On a successful registration the record appended to [users] has
    the id [users.length + 1] (the length before the call), the submitted
    name, email, password and user type, and the role [Law Firm] for
    [firm], [Solo Practitioner] for [solo] and [In-House Counsel] for any
    other user type; that record becomes [currentUser]. *)
Theorem handleRegister_appends_new_user (p : Page) (nm e pw ut : jsstring) :
  page_ok (document p) = true →
  register_form p nm e pw ut →
  6 ≤ length pw →
  (∀ u, u ∈ users p → email u ≠ e) →
  ∃ p' nu, handleRegister p = (Normal tt, p')
    ∧ users p' = users p ++ [nu]
    ∧ currentUser p' = user_obj nu
    ∧ id nu = length (users p) + 1
    ∧ name nu = nm ∧ email nu = e ∧ password nu = pw ∧ userType nu = ut
    ∧ (ut = js "firm" → role nu = js "Law Firm")
    ∧ (ut = js "solo" → role nu = js "Solo Practitioner")
    ∧ (ut ≠ js "firm" → ut ≠ js "solo" → role nu = js "In-House Counsel").
Proof.
  intros Hok Hform Hlen Hfresh.
  defined Hok "authScreen" a ea. defined Hok "dashboard" b eb.
  defined Hok "displayUserName" c ec. defined Hok "displayUserRole" d ed.
  defined Hok "userInitial" f ef. defined Hok "dashboard-section" g eg.
  apply find_email_None in Hfresh.
  eexists. exists (newUser (users p) nm e pw ut).
  split; [eapply handleRegister_fresh; by eauto with lia|].
  destruct (role_of_spec ut) as (? & ? & ?).
  split_and!; done.
Qed.

End Register.

(** ** Loading the page *)

Section Load.
Context `{Host}.

Lemma type_safe_bind {A B} P (c : JS A) (k : A → JS B) :
  type_safe P c → (∀ a, raises P (k a)) → raises P (bind c k).
Proof.
  intros Hc Hk p HP. unfold bind. specialize (Hc p HP).
  destruct (c p) as [[a|e] p1]; [by apply Hk|by subst].
Qed.

Lemma type_safe_assignById i f : type_safe nameless (assignById i f).
Proof.
  intros p HP. unfold assignById, bind, lookupElement, gets.
  by destruct (getElementById i (document p)).
Qed.

Lemma type_safe_gets {A} P (f : Page → A) : type_safe P (gets f).
Proof. by intros p HP. Qed.

Lemma type_safe_getProp P v k : type_safe P (getProp v k).
Proof. intros p HP. by destruct v. Qed.

Lemma type_safe_textOf P v : type_safe P (textOf v).
Proof. intros p HP. destruct v; simpl; try done; by destruct (ToString _). Qed.

Lemma initialOf_raises cu p :
  is_string (ownProp cu (js "name")) = false →
  ∀ k : jsstring → JS unit,
    ((nm <- getProp cu (js "name") ;; t <- initialOf nm ;; k t)%js p).1
    = Throw TypeError.
Proof.
  intros Hname k. unfold bind.
  destruct cu; try done.
  cbn [getProp ret]. by destruct (ownProp _ _).
Qed.

(** Without a string [name] in the session, [showDashboard] throws. *)
Lemma showDashboard_raises : raises nameless showDashboard.
Proof.
  unfold showDashboard.
  do 10 (apply type_safe_bind;
           [ first [ apply type_safe_assignById | apply type_safe_gets
                   | apply type_safe_getProp | apply type_safe_textOf ]
           | intros ? ]).
  intros p HP. erewrite bind_Normal by reflexivity.
  by apply initialOf_raises.
Qed.

End Load.

(** ** What the selectors see is stable *)

Lemma active_not_content_section : active ≠ js "content-section".
Proof. js_neq. Qed.

Lemma active_not_sidebar_link : active ≠ js "sidebar-link".
Proof. js_neq. Qed.

#[global] Instance classList_add_active_cosmetic : Cosmetic (classList_add active).
Proof.
  intros e. unfold selectors.
  rewrite !has_class_add_other
    by first [apply active_not_content_section | apply active_not_sidebar_link].
  done.
Qed.

#[global] Instance remove_if_active_cosmetic c : Cosmetic (remove_if c active).
Proof.
  intros e. unfold selectors.
  rewrite !has_class_remove_if_other
    by first [apply active_not_content_section | apply active_not_sidebar_link].
  unfold remove_if. by destruct (has_class c e).
Qed.

#[global] Instance set_display_cosmetic s : Cosmetic (set_display s).
Proof. by intros e. Qed.

#[global] Instance set_textContent_cosmetic s : Cosmetic (set_textContent s).
Proof. by intros e. Qed.

Lemma selectors_alter f `{!Cosmetic f} n (d : Document) :
  selectors <$> alter f n d = selectors <$> d.
Proof.
  rewrite (list_fmap_alter selectors f (λ x, x)).
  - by apply list_alter_id.
  - apply Forall_forall. intros e _. apply cosmetic.
Qed.

Lemma selectors_remove_from_all c d :
  selectors <$> remove_from_all c active d = selectors <$> d.
Proof.
  unfold remove_from_all. rewrite <-list_fmap_compose.
  apply list_fmap_ext. intros ? e _. apply cosmetic.
Qed.

Lemma selectors_section_shown n l d :
  selectors <$> section_shown n l d = selectors <$> d.
Proof.
  unfold section_shown, hide_all.
  destruct l; rewrite !selectors_alter by apply _;
    by rewrite !selectors_remove_from_all.
Qed.

Lemma selectors_dashboard_doc `{Host} a b c d e f nm rl d0 :
  selectors <$> dashboard_doc a b c d e f nm rl d0 = selectors <$> d0.
Proof.
  unfold dashboard_doc. rewrite selectors_section_shown.
  by rewrite !selectors_alter by apply _.
Qed.

Lemma selectors_ids (d d' : Document) :
  selectors <$> d = selectors <$> d' → el_id <$> d = el_id <$> d'.
Proof.
  intros Hsel.
  change el_id with ((λ x : jsstring * bool * bool * option jsstring, x.1.1.1) ∘ selectors).
  by rewrite !list_fmap_compose, Hsel.
Qed.

Lemma selectors_lookup (d d' : Document) n :
  selectors <$> d = selectors <$> d' →
  selectors <$> d !! n = selectors <$> d' !! n.
Proof. intros Hsel. by rewrite <-!list_lookup_fmap, Hsel. Qed.

Lemma page_ok_selectors (d d' : Document) :
  selectors <$> d = selectors <$> d' → page_ok d = page_ok d'.
Proof.
  intros Hsel. unfold page_ok.
  pose proof (selectors_ids _ _ Hsel) as Hids.
  f_equal.
  - unfold defines. induction required_ids as [|i l IH]; simpl; [done|].
    by rewrite IH, (getElementById_ids i d d').
  - rewrite (getElementById_ids _ d d') by done.
    destruct (getElementById (js "dashboard") d') as [n|]; simpl; [|done].
    pose proof (selectors_lookup _ _ n Hsel) as Hn.
    destruct (d !! n) as [e|], (d' !! n) as [e'|]; simplify_eq/=; try done.
    congruence.
Qed.

Lemma querySelector_default_link_cons e d :
  querySelector_default_link (e :: d)
  = if is_default_link e then Some 0 else S <$> querySelector_default_link d.
Proof.
  unfold querySelector_default_link. simpl.
  destruct (is_default_link e); simpl; [done|].
  by destruct (list_find _ d) as [[??]|].
Qed.

Lemma querySelector_default_link_selectors (d d' : Document) :
  selectors <$> d = selectors <$> d' →
  querySelector_default_link d = querySelector_default_link d'.
Proof.
  revert d'. induction d as [|e d IH]; intros [|e' d'] Hsel; [done..|].
  injection Hsel as Hid Hcs Hsl Hhref Hrest.
  rewrite !querySelector_default_link_cons, (IH d') by done.
  unfold is_default_link. by rewrite Hsl, Hhref.
Qed.

Lemma querySelector_default_link_Some d k :
  querySelector_default_link d = Some k → is_Some (d !! k).
Proof.
  unfold querySelector_default_link. intros Hq.
  destruct (list_find _ d) as [[m e]|] eqn:Hfind; simplify_eq/=.
  apply list_find_Some in Hfind as (? & _). eauto.
Qed.

(** ** Restoring a session *)

Lemma is_user_record_props v :
  is_user_record v = true →
  ∃ props nm rl, v = VObj props
    ∧ ownProp v (js "name") = VStr nm ∧ ownProp v (js "role") = VStr rl.
Proof.
  destruct v as [| | | | |?|props]; try done. unfold is_user_record.
  intros [_ Hs]%andb_true_iff. simpl in Hs.
  repeat (apply andb_true_iff in Hs as [? Hs]).
  destruct (ownProp _ (js "name")) as [| | | |nm| |]; try done.
  destruct (ownProp _ (js "role")) as [| | | |rl| |]; try done.
  by exists props, nm, rl.
Qed.

Lemma is_user_record_user_obj u : is_user_record (user_obj u) = true.
Proof. reflexivity. Qed.

Section Restore.
Context `{Host}.

Lemma elementById_section_shown i n l p :
  elementById i (with_document (section_shown n l) p)
  = getElementById i (document p) ≫= λ m, section_shown n l (document p) !! m.
Proof.
  unfold elementById. fields. by rewrite getElementById_ids_section_shown.
Qed.

(** Showing the dashboard section again keeps the dashboard shown. *)
Lemma dashboard_shown_section_shown nm rl p f l :
  page_ok (document p) = true →
  getElementById (js "dashboard-section") (document p) = Some f →
  dashboard_shown nm rl p →
  dashboard_shown nm rl (with_document (section_shown f l) p).
Proof.
  intros Hok Hf.
  defined Hok "authScreen" a ea. defined Hok "dashboard" b eb.
  defined Hok "displayUserName" c ec. defined Hok "displayUserRole" d ed.
  defined Hok "userInitial" e ee.
  destruct (getElementById_Some _ _ _ Hf) as (ef & Hef & _).
  destruct (page_ok_dashboard _ _ _ Hok Hb Heb) as [Hcs Hsl].
  unfold dashboard_shown.
  rewrite !elementById_section_shown. unfold elementById.
  rewrite Ha, Hb, Hc, Hd, He, Hf. simpl mbind.
  rewrite !section_shown_lookup.
  rewrite Hea, Heb, Hec, Hed, Hee, Hef. simpl.
  intros (Hda & Hab & Htc & Htd & Hte & _).
  simplify_eq/=.
  split_and!; f_equal.
  - settle.
  - rewrite (remove_if_unclassed (js "content-section")) by done.
    rewrite remove_if_unclassed by done.
    repeat case_decide; by rewrite ?has_class_add_same.
  - settle.
  - settle.
  - settle.
  - destruct (decide (f = f)); [|done].
    case_decide; by rewrite has_class_add_same.
Qed.

Lemma onLoad_absent p :
  localStorage p !! key_currentUser = None
  ∨ localStorage p !! key_currentUser = Some [] →
  onLoad p = (Normal tt, p).
Proof.
  intros Hs. unfold onLoad. erewrite bind_Normal by reflexivity.
  by destruct Hs as [-> | ->].
Qed.

Lemma onLoad_not_json p s :
  localStorage p !! key_currentUser = Some s → s ≠ [] →
  JSON_parse s = None →
  onLoad p = (Throw SyntaxError, p).
Proof.
  intros Hs Hne Hparse. unfold onLoad. erewrite bind_Normal by reflexivity.
  rewrite Hs. destruct s; [done|]. cbv beta iota. by rewrite Hparse.
Qed.

Lemma onLoad_nameless p s v :
  localStorage p !! key_currentUser = Some s → s ≠ [] →
  JSON_parse s = Some v →
  is_string (ownProp v (js "name")) = false →
  (onLoad p).1 = Throw TypeError.
Proof.
  intros Hs Hne Hparse Hname. unfold onLoad.
  erewrite bind_Normal by reflexivity.
  rewrite Hs. destruct s; [done|]. cbv beta iota. rewrite Hparse.
  erewrite bind_Normal by reflexivity.
  pose proof (showDashboard_raises (with_currentUser v p) Hname) as Hthrow.
  unfold bind at 1.
  destruct (showDashboard (with_currentUser v p)) as [[[]|e] p1];
    by simplify_eq/=.
Qed.

Lemma onLoad_restores p s props nm rl a b c d e f :
  localStorage p !! key_currentUser = Some s → s ≠ [] →
  JSON_parse s = Some (VObj props) →
  ownProp (VObj props) (js "name") = VStr nm →
  ownProp (VObj props) (js "role") = VStr rl →
  getElementById (js "authScreen") (document p) = Some a →
  getElementById (js "dashboard") (document p) = Some b →
  getElementById (js "displayUserName") (document p) = Some c →
  getElementById (js "displayUserRole") (document p) = Some d →
  getElementById (js "userInitial") (document p) = Some e →
  getElementById (js "dashboard-section") (document p) = Some f →
  onLoad p
  = (Normal tt,
     with_document (section_shown f (querySelector_default_link (document p)))
       (with_document (dashboard_doc a b c d e f nm rl)
          (with_currentUser (VObj props) p))).
Proof.
  intros Hs Hne Hparse Hnm Hrl Ha Hb Hc Hd He Hf. unfold onLoad.
  erewrite bind_Normal by reflexivity.
  rewrite Hs. destruct s; [done|]. cbv beta iota. rewrite Hparse.
  erewrite bind_Normal by reflexivity.
  erewrite bind_Normal by (by eapply showDashboard_run).
  erewrite bind_Normal by reflexivity. fields.
  rewrite (querySelector_default_link_selectors _ (document p))
    by apply selectors_dashboard_doc.
  assert (Hf' : getElementById (js "dashboard" ++ js "-section")
                  (document (with_document (dashboard_doc a b c d e f nm rl)
                               (with_currentUser (VObj props) p))) = Some f).
  { rewrite dashboard_section_id. fields.
    rewrite (getElementById_ids _ _ (document p)); [done|].
    apply selectors_ids, selectors_dashboard_doc. }
  destruct (querySelector_default_link (document p));
    by rewrite (showSection_found _ _ _ f).
Qed.

(** C5. On page load, when local storage holds under [currentUser] a
    non-empty text that parses to a user record, the load handler returns
    with [currentUser] set to the parsed record and the dashboard shown,
    the dashboard section and the default sidebar link active; when no
    value is stored (or the empty string, which the script treats alike)
    it changes nothing. *)
Theorem onLoad_restores_session (p : Page) :
  page_ok (document p) = true →
  (∀ s v, localStorage p !! key_currentUser = Some s → s ≠ [] →
          JSON_parse s = Some v → is_user_record v = true →
     ∃ p' nm rl, onLoad p = (Normal tt, p')
       ∧ currentUser p' = v
       ∧ ownProp v (js "name") = VStr nm ∧ ownProp v (js "role") = VStr rl
       ∧ dashboard_shown nm rl p'
       ∧ (∀ k, querySelector_default_link (document p) = Some k →
               has_class active <$> document p' !! k = Some true)
       ∧ users p' = users p ∧ localStorage p' = localStorage p)
  ∧ (localStorage p !! key_currentUser = None
     ∨ localStorage p !! key_currentUser = Some [] →
     onLoad p = (Normal tt, p)).
Proof.
  intros Hok. split; [|apply onLoad_absent].
  intros s v Hs Hne Hparse (props & nm & rl & -> & Hnm & Hrl)%is_user_record_props.
  defined Hok "authScreen" a ea. defined Hok "dashboard" b eb.
  defined Hok "displayUserName" c ec. defined Hok "displayUserRole" d ed.
  defined Hok "userInitial" e ee. defined Hok "dashboard-section" f ef.
  eexists. exists nm, rl. split; [by eapply onLoad_restores|].
  split_and!; try done.
  - apply dashboard_shown_section_shown.
    + fields. rewrite <-Hok. apply page_ok_selectors, selectors_dashboard_doc.
    + fields. rewrite (getElementById_ids _ _ (document p)); [done|].
      apply selectors_ids, selectors_dashboard_doc.
    + by apply (dashboard_doc_shown (with_currentUser _ p)).
  - intros k Hk. fields. rewrite Hk, section_shown_lookup.
    destruct (querySelector_default_link_Some _ _ Hk) as [ek Hek].
    assert (is_Some (dashboard_doc a b c d e f nm rl (document p) !! k))
      as [ek' ->].
    { apply lookup_lt_is_Some.
      rewrite <-(length_fmap selectors), selectors_dashboard_doc, length_fmap.
      by eapply lookup_lt_Some. }
    simpl. rewrite (decide_True (P := Some k = Some k)) by done.
    by rewrite has_class_add_same.
Qed.

End Restore.

(** ** The session across the handlers *)

Section Session.
Context `{Host}.

(** A prefix that only reads or writes the document can be skipped when
    following the session. *)
Lemma bind_session {A B : Type} (R : list User * JsValue * gmap jsstring jsstring → Prop)
    (c : JS A) (k : A → JS B) p :
  keeps session c → R (session p) →
  (∀ a p1, session p1 = session p → R (session (k a p1).2)) →
  R (session (bind c k p).2).
Proof.
  intros Hc Hrefl Hk. unfold bind. specialize (Hc p).
  destruct (c p) as [[a|e] p1]; simpl in *; [by apply Hk|by rewrite Hc].
Qed.

Lemma handleLogin_session p :
  session (handleLogin p).2 = session p
  ∨ ∃ u, session (handleLogin p).2 = signed_in u (users p) (localStorage p).
Proof.
  unfold handleLogin.
  apply bind_session; [apply keeps_getValue|left; congruence|]. intros e p1 H1.
  apply bind_session; [apply keeps_getValue|left; congruence|]. intros pw p2 H2.
  apply bind_session; [unfold lookupElement; apply keeps_gets|left; congruence|]. intros err p3 H3.
  apply bind_session; [apply keeps_gets|left; congruence|]. intros us p4 H4.
  destruct (find _ us) as [u|].
  - right. exists u. do 2 (erewrite bind_Normal by reflexivity).
    rewrite keeps_session_showDashboard.
    unfold session in *. fields. unfold signed_in. congruence.
  - left.
    assert (Hk : keeps session
                   (n <- deref err ;;
                    writeElement n (set_innerHTML msg_invalid_credentials))%js)
      by keeps_dom.
    rewrite Hk. congruence.
Qed.

Lemma handleRegister_session p :
  session (handleRegister p).2 = session p
  ∨ ∃ u, session (handleRegister p).2
         = signed_in u (users p ++ [u]) (localStorage p).
Proof.
  unfold handleRegister.
  apply bind_session; [apply keeps_getValue|left; congruence|]. intros nm p1 H1.
  apply bind_session; [apply keeps_getValue|left; congruence|]. intros e p2 H2.
  apply bind_session; [apply keeps_getValue|left; congruence|]. intros pw p3 H3.
  apply bind_session; [apply keeps_getValue|left; congruence|]. intros ut p4 H4.
  apply bind_session; [unfold lookupElement; apply keeps_gets|left; congruence|]. intros err p5 H5.
  assert (Hk : ∀ m, keeps session
                      (n <- deref err ;; writeElement n (set_innerHTML m))%js)
    by (intros m; keeps_dom).
  case_decide.
  { left. rewrite Hk. congruence. }
  erewrite bind_Normal by reflexivity.
  destruct (find _ (users p5)) as [u|].
  - left. rewrite Hk. congruence.
  - right. exists (newUser (users p5) nm e pw ut).
    do 3 (erewrite bind_Normal by reflexivity).
    rewrite keeps_session_showDashboard.
    unfold session in *. fields. unfold signed_in.
    replace (users p5) with (users p) by congruence.
    replace (localStorage p5) with (localStorage p) by congruence. done.
Qed.

Lemma handleLogout_session p :
  session (handleLogout p).2
  = (users p, VNull, delete key_currentUser (localStorage p)).
Proof.
  unfold handleLogout. do 2 (erewrite bind_Normal by reflexivity).
  assert (Hk : keeps session
                 (assignById (js "dashboard") (classList_remove active) ;;
                  assignById (js "authScreen") (set_display (js "flex")) ;;
                  assignById (js "loginEmail") (set_value []) ;;
                  assignById (js "loginPassword") (set_value []))%js)
    by keeps_dom.
  by rewrite Hk.
Qed.

Lemma mirrored_session p p' :
  currentUser p' = currentUser p → localStorage p' = localStorage p →
  mirrored p → mirrored p'.
Proof. unfold mirrored. by intros -> ->. Qed.

Lemma mirrored_signed_in p u us storage :
  session p = signed_in u us storage → mirrored p.
Proof.
  unfold session, signed_in, mirrored. intros [= _ -> ->].
  simpl. apply lookup_insert_eq.
Qed.

(** The page starts mirrored when nothing is stored. *)
Lemma initial_page_mirrored storage d :
  storage !! key_currentUser = None → mirrored (initial_page storage d).
Proof. done. Qed.

(** The session after [handleLogin] and [handleRegister], from what the
    form holds, whatever else the document has and however they
    complete. *)
Lemma handleLogin_session_of p e pw :
  value <$> elementById (js "loginEmail") p = Some e →
  value <$> elementById (js "loginPassword") p = Some pw →
  session (handleLogin p).2
  = match find (credentials_match e pw) (users p) with
    | Some u => signed_in u (users p) (localStorage p)
    | None => session p
    end.
Proof.
  intros (el & Hel & <-)%field_Some (pl & Hpl & <-)%field_Some.
  unfold handleLogin.
  erewrite bind_Normal by (rewrite getValue_run, Hel; reflexivity).
  erewrite bind_Normal by (rewrite getValue_run, Hpl; reflexivity).
  do 2 (erewrite bind_Normal by reflexivity).
  destruct (find _ (users p)) as [u|].
  - do 2 (erewrite bind_Normal by reflexivity).
    by rewrite keeps_session_showDashboard.
  - assert (Hk : keeps session
                   (n <- deref (getElementById (js "loginError") (document p)) ;;
                    writeElement n (set_innerHTML msg_invalid_credentials))%js)
      by keeps_dom.
    by rewrite Hk.
Qed.

Lemma handleRegister_session_of p nm e pw ut :
  register_form p nm e pw ut →
  session (handleRegister p).2
  = if decide (length pw < 6) then session p
    else match find (λ u, bool_decide (email u = e)) (users p) with
         | Some _ => session p
         | None => signed_in (newUser (users p) nm e pw ut)
                     (users p ++ [newUser (users p) nm e pw ut])
                     (localStorage p)
         end.
Proof.
  intros Hform. unfold handleRegister.
  rewrite (handleRegister_prefix p nm e pw ut) by done.
  erewrite bind_Normal by reflexivity.
  assert (Hk : ∀ m, keeps session
                      (n <- deref (getElementById (js "registerError")
                                     (document p)) ;;
                       writeElement n (set_innerHTML m))%js)
    by (intros m; keeps_dom).
  case_decide; [by rewrite Hk|].
  erewrite bind_Normal by reflexivity.
  destruct (find _ (users p)) as [u|]; [by rewrite Hk|].
  do 3 (erewrite bind_Normal by reflexivity).
  by rewrite keeps_session_showDashboard.
Qed.

Lemma mirrored_same p p' :
  currentUser p' = currentUser p → localStorage p' = localStorage p →
  mirrored p' ↔ mirrored p.
Proof. unfold mirrored. by intros -> ->. Qed.

(** C4, as amended.  The stored [currentUser] entry mirrors the session
    (it is the serialization of [currentUser] when that is a user record,
    and absent when [currentUser] is [null]) after the operations that
    write the session, whatever the state before and however they
    complete:
    - after [handleLogout], [currentUser] is [null] and the entry absent;
    - after a [handleLogin] whose email and password a record has,
      [currentUser] is such a record and the entry its serialization;
    - after a [handleRegister] with a password of at least 6 code units
      and an unused email, [currentUser] is the new record and the entry
      its serialization.
    A rejected login or registration writes neither [currentUser] nor
    local storage, so the entry mirrors the session after it exactly when
    it did before.  Hence each of the three handlers keeps the mirror
    once it holds, also when a form control is missing and it throws. *)
Theorem handlers_mirror_session (p : Page) :
  (currentUser (handleLogout p).2 = VNull ∧ mirrored (handleLogout p).2)
  ∧ (∀ e pw,
       value <$> elementById (js "loginEmail") p = Some e →
       value <$> elementById (js "loginPassword") p = Some pw →
       ((∃ u, u ∈ users p ∧ email u = e ∧ password u = pw) →
        ∃ u, u ∈ users p ∧ email u = e ∧ password u = pw
             ∧ currentUser (handleLogin p).2 = user_obj u
             ∧ mirrored (handleLogin p).2)
       ∧ (¬ (∃ u, u ∈ users p ∧ email u = e ∧ password u = pw) →
          currentUser (handleLogin p).2 = currentUser p
          ∧ localStorage (handleLogin p).2 = localStorage p
          ∧ (mirrored (handleLogin p).2 ↔ mirrored p)))
  ∧ (∀ nm e pw ut,
       register_form p nm e pw ut →
       (6 ≤ length pw → (∀ u, u ∈ users p → email u ≠ e) →
        currentUser (handleRegister p).2
        = user_obj (newUser (users p) nm e pw ut)
        ∧ mirrored (handleRegister p).2)
       ∧ (length pw < 6 ∨ (∃ u, u ∈ users p ∧ email u = e) →
          currentUser (handleRegister p).2 = currentUser p
          ∧ localStorage (handleRegister p).2 = localStorage p
          ∧ (mirrored (handleRegister p).2 ↔ mirrored p)))
  ∧ (mirrored p →
     mirrored (handleLogin p).2 ∧ mirrored (handleRegister p).2).
Proof.
  split_and!.
  - pose proof (handleLogout_session p) as Hs.
    unfold session in Hs. by simplify_eq.
  - pose proof (handleLogout_session p) as Hs.
    unfold session in Hs. simplify_eq.
    unfold mirrored. replace (currentUser (handleLogout p).2) with VNull.
    replace (localStorage (handleLogout p).2)
      with (delete key_currentUser (localStorage p)).
    apply lookup_delete_eq.
  - intros e pw He Hpw.
    pose proof (handleLogin_session_of p e pw He Hpw) as Hs.
    destruct (find (credentials_match e pw) (users p)) as [u|] eqn:Hfind.
    + apply find_some in Hfind
        as [Hu%list_elem_of_In [??]%credentials_match_spec].
      split; [|intros []; eauto].
      intros _. exists u. split_and!; try done.
      * unfold session, signed_in in Hs. congruence.
      * by eapply mirrored_signed_in.
    + pose proof (proj1 (find_credentials_None _ _ _) Hfind) as Hno.
      split; [intros (u & Hu & Hm); by destruct (Hno u)|].
      intros _. unfold session in Hs.
      assert (currentUser (handleLogin p).2 = currentUser p) by congruence.
      assert (localStorage (handleLogin p).2 = localStorage p) by congruence.
      split_and!; try done. by apply mirrored_same.
  - intros nm e pw ut Hform.
    pose proof (handleRegister_session_of p nm e pw ut Hform) as Hs.
    split.
    + intros Hlen Hfresh. rewrite decide_False in Hs by lia.
      rewrite (proj2 (find_email_None _ _) Hfresh) in Hs.
      split; [unfold session, signed_in in Hs; congruence|].
      by eapply mirrored_signed_in.
    + intros Hrej.
      assert (Hsame : session (handleRegister p).2 = session p).
      { case_decide; [done|].
        destruct (find _ (users p)) as [u|] eqn:Hfind; [done|].
        destruct Hrej as [?|(u & Hu & He)]; [lia|].
        by destruct (proj1 (find_email_None _ _) Hfind u). }
      unfold session in Hsame.
      assert (currentUser (handleRegister p).2 = currentUser p) by congruence.
      assert (localStorage (handleRegister p).2 = localStorage p)
        by congruence.
      split_and!; try done. by apply mirrored_same.
  - intros Hm. split.
    + destruct (handleLogin_session p) as [Hs|[u Hs]].
      * unfold session in Hs. simplify_eq. by eapply mirrored_session.
      * by eapply mirrored_signed_in.
    + destruct (handleRegister_session p) as [Hs|[u Hs]].
      * unfold session in Hs. simplify_eq. by eapply mirrored_session.
      * by eapply mirrored_signed_in.
Qed.

End Session.

(** ** The user list across the handlers *)

Section Users.
Context `{Host}.

Lemma keeps_users_onLoad : keeps users onLoad.
Proof.
  unfold onLoad. apply keeps_bind; [apply keeps_gets|]. intros [[|c s]|].
  - apply keeps_ret.
  - destruct (JSON_parse (c :: s)) as [v|]; [|apply keeps_throw].
    apply keeps_bind; [by apply keeps_modify|]. intros _.
    apply keeps_bind; [apply keeps_session_users, keeps_session_showDashboard|].
    intros _. apply keeps_bind; [apply keeps_gets|].
    intros [l|]; apply keeps_session_users, keeps_session_showSection.
  - apply keeps_ret.
Qed.

Lemma keeps_session_toggleToRegister : keeps session toggleToRegister.
Proof. unfold toggleToRegister. keeps_dom. Qed.

Lemma keeps_session_toggleToLogin : keeps session toggleToLogin.
Proof. unfold toggleToLogin. keeps_dom. Qed.

(** C2, as amended.  The user list starts as the three demo records.  No
    handler removes or changes a record: whatever handler runs, and
    however it completes, the list afterwards is the list before, except
    that [handleRegister] may have appended one record to it. *)
Theorem users_only_grow_by_registration (h : Handler) (p : Page) :
  (∀ storage d, users (initial_page storage d) = initial_users)
  ∧ length initial_users = 3
  ∧ (users (run h p).2 = users p
     ∨ (h = HRegister ∧ ∃ u, users (run h p).2 = users p ++ [u])).
Proof.
  split_and!; [done..|].
  destruct h as [| | | | | |s l]; simpl.
  - left. apply keeps_users_onLoad.
  - left. destruct (handleLogin_session p) as [Hs|[u Hs]];
      unfold session, signed_in in Hs; congruence.
  - destruct (handleRegister_session p) as [Hs|[u Hs]];
      unfold session, signed_in in Hs.
    + left. congruence.
    + right. split; [done|]. exists u. congruence.
  - left. pose proof (handleLogout_session p) as Hs.
    unfold session in Hs. congruence.
  - left. apply keeps_session_users, keeps_session_toggleToRegister.
  - left. apply keeps_session_users, keeps_session_toggleToLogin.
  - left. apply keeps_session_users, keeps_session_showSection.
Qed.

(** C6, as amended.  On page load with a non-empty stored value: if the
    value is not JSON the load handler throws a [SyntaxError]; if it is
    JSON for a value without a string [name] ([null], a number, a
    string, a boolean, an array, or an object whose [name] is missing or
    not a string) it throws a [TypeError]; and if it is JSON for a user
    record it does not throw. *)
Theorem onLoad_raises_on_malformed (p : Page) (s : jsstring) :
  localStorage p !! key_currentUser = Some s → s ≠ [] →
  (JSON_parse s = None → onLoad p = (Throw SyntaxError, p))
  ∧ (∀ v, JSON_parse s = Some v →
          is_string (ownProp v (js "name")) = false →
          (onLoad p).1 = Throw TypeError)
  ∧ (∀ v, JSON_parse s = Some v → is_user_record v = true →
          page_ok (document p) = true →
          (onLoad p).1 = Normal tt).
Proof.
  intros Hs Hne. split_and!.
  - by apply onLoad_not_json.
  - intros v ??. by eapply onLoad_nameless.
  - intros v Hparse (props & nm & rl & -> & Hnm & Hrl)%is_user_record_props Hok.
    defined Hok "authScreen" a ea. defined Hok "dashboard" b eb.
    defined Hok "displayUserName" c ec. defined Hok "displayUserRole" d ed.
    defined Hok "userInitial" e ee. defined Hok "dashboard-section" f ef.
    by erewrite onLoad_restores.
Qed.

End Users.

(** ** Well-formedness is a property of the HTML shell *)

#[global] Instance classList_remove_active_cosmetic :
  Cosmetic (classList_remove active).
Proof.
  intros e. unfold selectors.
  rewrite !has_class_remove_other
    by first [apply active_not_content_section | apply active_not_sidebar_link].
  done.
Qed.

#[global] Instance set_value_cosmetic s : Cosmetic (set_value s).
Proof. by intros e. Qed.

#[global] Instance set_innerHTML_cosmetic s : Cosmetic (set_innerHTML s).
Proof. by intros e. Qed.

Section Shell.
Context `{Host}.

Lemma keeps_skeleton_writeElement n f `{!Cosmetic f} :
  keeps skeleton (writeElement n f).
Proof. intros p. unfold skeleton. simpl. by apply selectors_alter. Qed.

Lemma keeps_skeleton_assignById i f `{!Cosmetic f} :
  keeps skeleton (assignById i f).
Proof.
  unfold assignById, lookupElement.
  apply keeps_bind; [apply keeps_gets|]. intros h.
  apply keeps_bind; [apply keeps_deref|]. intros n.
  by apply keeps_skeleton_writeElement.
Qed.

Lemma keeps_skeleton_showSection s l : keeps skeleton (showSection s l).
Proof.
  unfold showSection.
  apply keeps_bind;
    [apply keeps_modify; intros p; apply selectors_remove_from_all|intros _].
  apply keeps_bind;
    [apply keeps_modify; intros p; apply selectors_remove_from_all|intros _].
  apply keeps_bind; [apply keeps_skeleton_assignById; apply _|intros _].
  destruct l; [apply keeps_skeleton_writeElement; apply _|apply keeps_ret].
Qed.

Ltac keeps_shell :=
  repeat first
    [ apply keeps_skeleton_showSection
    | apply keeps_skeleton_assignById; apply _
    | apply keeps_skeleton_writeElement; apply _
    | apply keeps_getValue | apply keeps_deref
    | apply keeps_getProp | apply keeps_textOf | apply keeps_initialOf
    | keeps_step ].

Lemma keeps_skeleton_showDashboard : keeps skeleton showDashboard.
Proof. unfold showDashboard. keeps_shell. Qed.

(** No handler changes what the selectors see, so a well-formed page
    stays well-formed whatever has run on it. *)
Lemma run_keeps_skeleton h : keeps skeleton (run h).
Proof.
  destruct h as [| | | | | |s l]; simpl.
  - unfold onLoad. apply keeps_bind; [apply keeps_gets|]. intros [[|c s]|];
      [apply keeps_ret| |apply keeps_ret].
    destruct (JSON_parse (c :: s)); [|apply keeps_throw].
    apply keeps_bind; [by apply keeps_modify|intros _].
    apply keeps_bind; [apply keeps_skeleton_showDashboard|intros _].
    apply keeps_bind; [apply keeps_gets|].
    intros [l|]; apply keeps_skeleton_showSection.
  - unfold handleLogin, lookupElement.
    do 4 (apply keeps_bind; [keeps_shell|intros ?]).
    destruct (find _ _); [|keeps_shell].
    do 2 (apply keeps_bind; [by apply keeps_modify|intros _]).
    apply keeps_skeleton_showDashboard.
  - unfold handleRegister, lookupElement.
    do 5 (apply keeps_bind; [keeps_shell|intros ?]).
    case_decide; [keeps_shell|].
    apply keeps_bind; [keeps_shell|intros ?].
    destruct (find _ _); [keeps_shell|].
    do 3 (apply keeps_bind; [by apply keeps_modify|intros _]).
    apply keeps_skeleton_showDashboard.
  - unfold handleLogout.
    do 2 (apply keeps_bind; [by apply keeps_modify|intros _]).
    keeps_shell.
  - unfold toggleToRegister. keeps_shell.
  - unfold toggleToLogin. keeps_shell.
  - apply keeps_skeleton_showSection.
Qed.

Lemma run_keeps_page_ok h p :
  page_ok (document (run h p).2) = page_ok (document p).
Proof. apply page_ok_selectors, (run_keeps_skeleton h p). Qed.

End Shell.

(** * The handlers on the sample page *)

Section Evaluation.
Existing Instance RefHost.host.

(** The demo credentials on the sample page. *)
Lemma handleLogin_succeeds_iff_match_witness :
  page_ok (document login_page) = true
  ∧ value <$> elementById (js "loginEmail") login_page
    = Some (js "demo@lawfirm.com")
  ∧ value <$> elementById (js "loginPassword") login_page
    = Some (js "Demo@123")
  ∧ ∃ p', handleLogin login_page = (Normal tt, p')
      ∧ ((∃ u, u ∈ users login_page ∧ email u = js "demo@lawfirm.com"
               ∧ password u = js "Demo@123") →
         ∃ u, u ∈ users login_page ∧ email u = js "demo@lawfirm.com"
              ∧ password u = js "Demo@123"
              ∧ currentUser p' = user_obj u
              ∧ localStorage p' !! key_currentUser
                = Some (JSON_stringify (user_obj u))
              ∧ dashboard_shown (name u) (role u) p')
      ∧ (¬ (∃ u, u ∈ users login_page ∧ email u = js "demo@lawfirm.com"
                 ∧ password u = js "Demo@123") →
         innerHTML <$> elementById (js "loginError") p'
         = Some msg_invalid_credentials
         ∧ currentUser p' = currentUser login_page
         ∧ localStorage p' = localStorage login_page
         ∧ elementById (js "dashboard") p'
           = elementById (js "dashboard") login_page
         ∧ elementById (js "authScreen") p'
           = elementById (js "authScreen") login_page).
Proof.
  split; [reflexivity|]. split; [reflexivity|]. split; [reflexivity|].
  apply (handleLogin_succeeds_iff_match login_page
           (js "demo@lawfirm.com") (js "Demo@123")); reflexivity.
Defined.

(** The demo email with a password in the wrong case. *)
Lemma handleLogin_failure_changes_nothing_witness :
  defines [js "loginError"] (document wrong_password_page) = true
  ∧ value <$> elementById (js "loginEmail") wrong_password_page
    = Some (js "demo@lawfirm.com")
  ∧ value <$> elementById (js "loginPassword") wrong_password_page
    = Some (js "demo@123")
  ∧ (∀ u, u ∈ users wrong_password_page →
          ¬ (email u = js "demo@lawfirm.com" ∧ password u = js "demo@123"))
  ∧ ∃ n p', getElementById (js "loginError") (document wrong_password_page)
            = Some n
      ∧ handleLogin wrong_password_page = (Normal tt, p')
      ∧ document p'
        = alter (set_innerHTML msg_invalid_credentials) n
            (document wrong_password_page)
      ∧ users p' = users wrong_password_page
      ∧ currentUser p' = currentUser wrong_password_page
      ∧ localStorage p' = localStorage wrong_password_page.
Proof.
  assert (Hno : ∀ u, u ∈ users wrong_password_page →
            ¬ (email u = js "demo@lawfirm.com" ∧ password u = js "demo@123"))
    by (apply find_credentials_None; reflexivity).
  split; [reflexivity|]. split; [reflexivity|]. split; [reflexivity|].
  split; [exact Hno|].
  apply (handleLogin_failure_changes_nothing wrong_password_page
           (js "demo@lawfirm.com") (js "demo@123"));
    [reflexivity | reflexivity | reflexivity | exact Hno].
Defined.

(** A page that does not mirror its session: the load handler has
    restored the demo user from the padded text.  A login as the second
    demo user, a registration and a logout each leave it mirrored. *)
Lemma handlers_mirror_session_witness :
  ¬ mirrored (signing_up (retyped stale_page))
  ∧ value <$> elementById (js "loginEmail") (signing_up (retyped stale_page))
    = Some (js "solo@attorney.com")
  ∧ value <$> elementById (js "loginPassword") (signing_up (retyped stale_page))
    = Some (js "Solo@123")
  ∧ (∃ u, u ∈ users (signing_up (retyped stale_page))
          ∧ email u = js "solo@attorney.com" ∧ password u = js "Solo@123")
  ∧ register_form (signing_up (retyped stale_page))
      (js "Ada") (js "ada@example.com") (js "secret1") (js "solo")
  ∧ 6 ≤ length (js "secret1")
  ∧ (∀ u, u ∈ users (signing_up (retyped stale_page)) →
          email u ≠ js "ada@example.com")
  ∧ (currentUser (handleLogout (signing_up (retyped stale_page))).2 = VNull
     ∧ mirrored (handleLogout (signing_up (retyped stale_page))).2)
  ∧ (∃ u, u ∈ users (signing_up (retyped stale_page))
          ∧ email u = js "solo@attorney.com" ∧ password u = js "Solo@123"
          ∧ currentUser (handleLogin (signing_up (retyped stale_page))).2
            = user_obj u
          ∧ mirrored (handleLogin (signing_up (retyped stale_page))).2)
  ∧ (currentUser (handleRegister (signing_up (retyped stale_page))).2
     = user_obj (newUser (users (signing_up (retyped stale_page)))
                   (js "Ada") (js "ada@example.com") (js "secret1")
                   (js "solo"))
     ∧ mirrored (handleRegister (signing_up (retyped stale_page))).2).
Proof.
  assert (Hstale : ¬ mirrored (signing_up (retyped stale_page)))
    by (intros Hm; vm_compute in Hm; discriminate Hm).
  assert (Hsolo : ∃ u, u ∈ users (signing_up (retyped stale_page))
            ∧ email u = js "solo@attorney.com" ∧ password u = js "Solo@123").
  { eexists. split; [apply list_elem_of_lookup_2 with (i := 1); reflexivity|].
    split; reflexivity. }
  assert (Hfresh : ∀ u, u ∈ users (signing_up (retyped stale_page)) →
            email u ≠ js "ada@example.com")
    by (apply find_email_None; reflexivity).
  assert (Hlen : 6 ≤ length (js "secret1")) by (vm_compute; lia).
  destruct (handlers_mirror_session (signing_up (retyped stale_page)))
    as (Hout & Hin & Hreg & _).
  split; [exact Hstale|]. split; [reflexivity|]. split; [reflexivity|].
  split; [exact Hsolo|]. split; [repeat split|]. split; [exact Hlen|].
  split; [exact Hfresh|]. split; [exact Hout|]. split.
  - apply (proj1 (Hin (js "solo@attorney.com") (js "Solo@123")
                    eq_refl eq_refl)).
    exact Hsolo.
  - apply (proj1 (Hreg (js "Ada") (js "ada@example.com") (js "secret1")
                    (js "solo") ltac:(repeat split)));
      [exact Hlen | exact Hfresh].
Defined.

(** A reload with the demo user stored. *)
Lemma onLoad_restores_session_witness :
  page_ok (document returning_page) = true
  ∧ ∃ p' nm rl, onLoad returning_page = (Normal tt, p')
      ∧ currentUser p' = user_obj demo_user
      ∧ ownProp (user_obj demo_user) (js "name") = VStr nm
      ∧ ownProp (user_obj demo_user) (js "role") = VStr rl
      ∧ dashboard_shown nm rl p'
      ∧ (∀ k, querySelector_default_link (document returning_page) = Some k →
              has_class active <$> document p' !! k = Some true)
      ∧ users p' = users returning_page
      ∧ localStorage p' = localStorage returning_page.
Proof.
  split; [reflexivity|].
  apply (proj1 (onLoad_restores_session returning_page eq_refl)
           (RefHost.stringify (user_obj demo_user)) (user_obj demo_user));
    [reflexivity | discriminate | reflexivity | reflexivity].
Defined.

(** A reload with stored text that is not JSON. *)
Lemma onLoad_raises_on_malformed_witness :
  localStorage garbled_page !! key_currentUser = Some (js "{oops")
  ∧ js "{oops" ≠ []
  ∧ JSON_parse (js "{oops") = None
  ∧ onLoad garbled_page = (Throw SyntaxError, garbled_page).
Proof.
  split; [reflexivity|]. split; [discriminate|]. split; [reflexivity|].
  apply (proj1 (onLoad_raises_on_malformed garbled_page (js "{oops")
                  eq_refl ltac:(discriminate))).
  reflexivity.
Defined.

(** Logging out after the demo user has logged in. *)
Lemma handleLogout_logs_out_witness :
  defines [js "dashboard"; js "authScreen"; js "loginEmail";
           js "loginPassword"] (document (handleLogin login_page).2) = true
  ∧ let r := handleLogout (handleLogin login_page).2 in
    r.1 = Normal tt
    ∧ currentUser r.2 = VNull
    ∧ localStorage r.2 !! key_currentUser = None
    ∧ has_class active <$> elementById (js "dashboard") r.2 = Some false
    ∧ display <$> elementById (js "authScreen") r.2 = Some (js "flex")
    ∧ value <$> elementById (js "loginEmail") r.2 = Some []
    ∧ value <$> elementById (js "loginPassword") r.2 = Some [].
Proof.
  split; [reflexivity|].
  apply (handleLogout_logs_out (handleLogin login_page).2). reflexivity.
Defined.

(** Navigating to the cases section from the second sidebar link, to a
    section that has no element, and to an element that is not a content
    section. *)
Lemma showSection_one_active_witness :
  (getElementById (js "cases" ++ js "-section") (document fresh_page) = Some 19
   ∧ document fresh_page !! 19
     = Some (element "cases-section" ["content-section"])
   ∧ has_class (js "content-section")
       (element "cases-section" ["content-section"]) = true
   ∧ has_class (js "sidebar-link")
       (element "cases-section" ["content-section"]) = false
   ∧ (∀ l el, Some 16 = Some l → document fresh_page !! l = Some el →
              has_class (js "content-section") el = false)
   ∧ ∃ p', showSection (js "cases") (Some 16) fresh_page = (Normal tt, p')
       ∧ (∃ e', document p' !! 19 = Some e' ∧ is_active_section e' = true)
       ∧ (∀ m el, document p' !! m = Some el →
                  is_active_section el = true → m = 19)
       ∧ (∀ m el, document p' !! m = Some el →
                  is_active_link el = true → Some 16 = Some m))
  ∧ (getElementById (js "documents" ++ js "-section") (document fresh_page)
     = None
     ∧ ∃ p', showSection (js "documents") (Some 16) fresh_page
             = (Throw TypeError, p')
         ∧ ∀ m el, document p' !! m = Some el →
                   is_active_section el = false ∧ is_active_link el = false)
  ∧ (getElementById (js "notes" ++ js "-section") (document plain_page)
     = Some 0
     ∧ document plain_page !! 0 = Some (element "notes-section" [])
     ∧ has_class (js "content-section") (element "notes-section" []) = false
     ∧ ∃ p', showSection (js "notes") None plain_page = (Normal tt, p')
         ∧ ∀ m el, document p' !! m = Some el →
                   is_active_section el = false).
Proof.
  assert (Hlink : ∀ l el, Some 16 = Some l →
            document fresh_page !! l = Some el →
            has_class (js "content-section") el = false)
    by (intros l el [= <-] [= <-]; reflexivity).
  split; [|split].
  - split; [reflexivity|]. split; [reflexivity|]. split; [reflexivity|].
    split; [reflexivity|]. split; [exact Hlink|].
    apply (proj1 (showSection_one_active fresh_page (js "cases") (Some 16))
             19 (element "cases-section" ["content-section"]));
      [reflexivity | reflexivity | reflexivity | reflexivity | exact Hlink].
  - split; [reflexivity|].
    apply (proj1 (proj2 (showSection_one_active fresh_page (js "documents")
                           (Some 16)))).
    reflexivity.
  - split; [reflexivity|]. split; [reflexivity|]. split; [reflexivity|].
    apply (proj2 (proj2 (showSection_one_active plain_page (js "notes") None))
             0 (element "notes-section" []));
      [reflexivity | reflexivity | reflexivity | intros l el [=]].
Defined.

(** A registration with a password of three characters. *)
Lemma handleRegister_rejects_iff_witness :
  page_ok (document short_password_page) = true
  ∧ register_form short_password_page
      (js "Ada") (js "ada@example.com") (js "abc") (js "solo")
  ∧ ∃ p', handleRegister short_password_page = (Normal tt, p')
      ∧ (length (js "abc") < 6
         ∨ (∃ u, u ∈ users short_password_page
                 ∧ email u = js "ada@example.com") →
         users p' = users short_password_page
         ∧ currentUser p' = currentUser short_password_page
         ∧ localStorage p' = localStorage short_password_page
         ∧ innerHTML <$> elementById (js "registerError") p'
           = Some (if decide (length (js "abc") < 6)
                   then msg_password_too_short else msg_email_registered))
      ∧ (¬ (length (js "abc") < 6
            ∨ (∃ u, u ∈ users short_password_page
                    ∧ email u = js "ada@example.com")) →
         users p' ≠ users short_password_page).
Proof.
  split; [reflexivity|]. split; [repeat split|].
  apply (handleRegister_rejects_iff short_password_page
           (js "Ada") (js "ada@example.com") (js "abc") (js "solo"));
    [reflexivity | repeat split].
Defined.

(** A registration that succeeds. *)
Lemma handleRegister_appends_new_user_witness :
  page_ok (document register_page) = true
  ∧ register_form register_page
      (js "Ada") (js "ada@example.com") (js "secret1") (js "solo")
  ∧ 6 ≤ length (js "secret1")
  ∧ (∀ u, u ∈ users register_page → email u ≠ js "ada@example.com")
  ∧ ∃ p' nu, handleRegister register_page = (Normal tt, p')
      ∧ users p' = users register_page ++ [nu]
      ∧ currentUser p' = user_obj nu
      ∧ id nu = length (users register_page) + 1
      ∧ name nu = js "Ada" ∧ email nu = js "ada@example.com"
      ∧ password nu = js "secret1" ∧ userType nu = js "solo"
      ∧ (js "solo" = js "firm" → role nu = js "Law Firm")
      ∧ (js "solo" = js "solo" → role nu = js "Solo Practitioner")
      ∧ (js "solo" ≠ js "firm" → js "solo" ≠ js "solo" →
         role nu = js "In-House Counsel").
Proof.
  assert (Hfresh : ∀ u, u ∈ users register_page →
            email u ≠ js "ada@example.com")
    by (apply find_email_None; reflexivity).
  assert (Hlen : 6 ≤ length (js "secret1")) by (vm_compute; lia).
  split; [reflexivity|]. split; [repeat split|].
  split; [exact Hlen|]. split; [exact Hfresh|].
  apply (handleRegister_appends_new_user register_page
           (js "Ada") (js "ada@example.com") (js "secret1") (js "solo"));
    [reflexivity | repeat split | exact Hlen | exact Hfresh].
Defined.

(** C2 as stated fails: a registration makes the list of three records a
    list of four. *)
Lemma users_list_grows :
  length (users register_page) = 3
  ∧ (handleRegister register_page).1 = Normal tt
  ∧ length (users (handleRegister register_page).2) = 4.
Proof. repeat split. Qed.

(** C4 as stated fails after a rejected login on a page that was loaded
    with stored text that is not the serialization of the value it
    parses to.  With the padded text the load handler returns with the
    demo user as the session; the rejected login returns, [currentUser]
    is that record and the stored entry is not its serialization.  With
    the text [null] the load handler throws after it has set the session
    to [null]; the rejected login returns, [currentUser] is [null] and
    the entry is present. *)
Lemma rejected_login_not_mirrored :
  ((onLoad padded_page).1 = Normal tt
   ∧ (handleLogin (mistyped stale_page)).1 = Normal tt
   ∧ currentUser (handleLogin (mistyped stale_page)).2 = user_obj demo_user
   ∧ localStorage (handleLogin (mistyped stale_page)).2 !! key_currentUser
     = Some (js " " ++ JSON_stringify (user_obj demo_user))
   ∧ ¬ mirrored (handleLogin (mistyped stale_page)).2)
  ∧ ((onLoad null_page).1 = Throw TypeError
     ∧ (handleLogin (mistyped stale_null_page)).1 = Normal tt
     ∧ currentUser (handleLogin (mistyped stale_null_page)).2 = VNull
     ∧ localStorage (handleLogin (mistyped stale_null_page)).2
         !! key_currentUser = Some (js "null")
     ∧ ¬ mirrored (handleLogin (mistyped stale_null_page)).2).
Proof.
  split; split_and!; try reflexivity.
  - intros Hm. vm_compute in Hm. discriminate Hm.
  - intros Hm. vm_compute in Hm. discriminate Hm.
Qed.

(** C6 as stated fails: the stored text below is not empty and does not
    encode a user record, and the load handler returns normally, the
    parsed object being the session. *)
Lemma onLoad_accepts_guest :
  localStorage guest_page !! key_currentUser = Some guest_text
  ∧ guest_text ≠ []
  ∧ JSON_parse guest_text = Some (VObj [(js "name", VStr (js "Guest"))])
  ∧ is_user_record (VObj [(js "name", VStr (js "Guest"))]) = false
  ∧ (onLoad guest_page).1 = Normal tt
  ∧ currentUser (onLoad guest_page).2 = VObj [(js "name", VStr (js "Guest"))].
Proof. split_and!; done. Qed.

(** C8 as stated fails: for a section id without an element, the call
    throws after it has hidden every section, and no content section is
    active afterwards. *)
Lemma showSection_unknown_section :
  getElementById (js "documents" ++ js "-section") (document fresh_page) = None
  ∧ (showSection (js "documents") None fresh_page).1 = Throw TypeError
  ∧ filter (λ e, is_active_section e = true)
      (document (showSection (js "documents") None fresh_page).2) = [].
Proof. repeat split. Qed.

End Evaluation.

(** * Further properties of the handlers *)

(** ** The form toggles *)

(** X1. On a page that has the two forms, [toggleToRegister] hides the
    login form and displays the registration form as a block, and a
    following [toggleToLogin] hides the registration form and displays
    the login form as a block again; neither touches the user list, the
    session or local storage. *)
Theorem toggles_swap_forms (p : Page) :
  defines [js "loginForm"; js "registerForm"] (document p) = true →
  ∃ p1 p2, toggleToRegister p = (Normal tt, p1)
    ∧ display <$> elementById (js "loginForm") p1 = Some (js "none")
    ∧ display <$> elementById (js "registerForm") p1 = Some (js "block")
    ∧ toggleToLogin p1 = (Normal tt, p2)
    ∧ display <$> elementById (js "loginForm") p2 = Some (js "block")
    ∧ display <$> elementById (js "registerForm") p2 = Some (js "none")
    ∧ session p1 = session p ∧ session p2 = session p.
Proof.
  intros Hok.
  defined Hok "loginForm" nl el. defined Hok "registerForm" nr er.
  do 2 eexists. split.
  { unfold toggleToRegister. assign Hnl. assign Hnr. reflexivity. }
  split; [observe; by rewrite Hel|]. split; [observe; by rewrite Her|].
  split.
  { unfold toggleToLogin. assign Hnr. assign Hnl. reflexivity. }
  split; [observe; by rewrite Hel|]. split; [observe; by rewrite Her|].
  done.
Qed.

(** X2. [toggleToRegister] on any page: when the login form is missing
    it throws a [TypeError] before it has changed anything; when only the
    registration form is missing it throws a [TypeError] after it has
    hidden the login form, which stays hidden; otherwise it returns with
    the two [display] styles written. *)
Theorem toggleToRegister_outcome (p : Page) :
  toggleToRegister p
  = match getElementById (js "loginForm") (document p) with
    | None => (Throw TypeError, p)
    | Some n =>
        match getElementById (js "registerForm") (document p) with
        | None =>
            (Throw TypeError,
             with_document (alter (set_display (js "none")) n) p)
        | Some m =>
            (Normal tt,
             with_document (alter (set_display (js "block")) m)
               (with_document (alter (set_display (js "none")) n) p))
        end
    end.
Proof.
  unfold toggleToRegister.
  destruct (getElementById (js "loginForm") (document p)) as [n|] eqn:Hl.
  - assign Hl.
    destruct (getElementById (js "registerForm") (document p)) as [m|] eqn:Hr.
    + by assign Hr.
    + apply assignById_missing. by relookup.
  - by erewrite (bind_Throw (assignById _ _)) by by apply assignById_missing.
Qed.

(** ** The user list over the life of a page *)

Section Lifetime.
Context `{Host}.

(** What [handleRegister] can do to the session, whatever the document. *)
Lemma handleRegister_outcome p :
  session (handleRegister p).2 = session p
  ∨ ∃ nm e pw ut,
      6 ≤ length pw ∧ (∀ u, u ∈ users p → email u ≠ e)
      ∧ session (handleRegister p).2
        = signed_in (newUser (users p) nm e pw ut)
            (users p ++ [newUser (users p) nm e pw ut]) (localStorage p).
Proof.
  unfold handleRegister.
  apply bind_session; [apply keeps_getValue|left; congruence|]. intros nm p1 H1.
  apply bind_session; [apply keeps_getValue|left; congruence|]. intros e p2 H2.
  apply bind_session; [apply keeps_getValue|left; congruence|]. intros pw p3 H3.
  apply bind_session; [apply keeps_getValue|left; congruence|]. intros ut p4 H4.
  apply bind_session;
    [unfold lookupElement; apply keeps_gets|left; congruence|].
  intros err p5 H5.
  assert (Hk : ∀ m, keeps session
                      (n <- deref err ;; writeElement n (set_innerHTML m))%js)
    by (intros m; keeps_dom).
  case_decide as Hlen.
  { left. rewrite Hk. congruence. }
  erewrite bind_Normal by reflexivity.
  assert (Hus : users p5 = users p) by (unfold session in *; congruence).
  assert (Hst : localStorage p5 = localStorage p)
    by (unfold session in *; congruence).
  destruct (find _ (users p5)) as [u|] eqn:Hfind.
  - left. rewrite Hk. congruence.
  - right. exists nm, e, pw, ut. split; [lia|]. split.
    { rewrite <-Hus. by apply find_email_None. }
    do 3 (erewrite bind_Normal by reflexivity).
    rewrite keeps_session_showDashboard.
    unfold session, signed_in. fields. by rewrite Hus, Hst.
Qed.

(** The user list after one action. *)
Lemma perform_users a p :
  users (perform a p) = users p
  ∨ ∃ nm e pw ut,
      6 ≤ length pw ∧ (∀ u, u ∈ users p → email u ≠ e)
      ∧ users (perform a p) = users p ++ [newUser (users p) nm e pw ut].
Proof.
  destruct a as [h|n v]; [|by left]. simpl.
  destruct h as [| | | | | |s l]; simpl.
  - left. apply keeps_users_onLoad.
  - left. destruct (handleLogin_session p) as [Hs|[u Hs]];
      unfold session, signed_in in Hs; congruence.
  - destruct (handleRegister_outcome p)
      as [Hs|(nm & e & pw & ut & ? & ? & Hs)]; unfold session, signed_in in Hs.
    + left. congruence.
    + right. exists nm, e, pw, ut. split_and!; [done..|]. congruence.
  - left. pose proof (handleLogout_session p) as Hs.
    unfold session in Hs. congruence.
  - left. apply keeps_session_users, keeps_session_toggleToRegister.
  - left. apply keeps_session_users, keeps_session_toggleToLogin.
  - left. apply keeps_session_users, keeps_session_showSection.
Qed.

(** An induction principle for the user list: a property that holds of
    the three demo records and is kept by every successful registration
    holds at every moment of the life of a page. *)
Lemma users_lifetime_ind (P : list User → Prop) :
  P initial_users →
  (∀ us nm e pw ut,
     P us → 6 ≤ length pw → (∀ u, u ∈ us → email u ≠ e) →
     P (us ++ [newUser us nm e pw ut])) →
  ∀ storage d l, P (users (lifetime l (initial_page storage d))).
Proof.
  intros Hinit Hstep storage d l. unfold lifetime.
  assert (Hgen : ∀ p, P (users p) →
            P (users (fold_left (λ q a, perform a q) l p))).
  { induction l as [|a l IH]; intros p Hp; simpl; [done|].
    apply IH.
    destruct (perform_users a p) as [->|(nm & e & pw & ut & ? & ? & ->)];
      [done|by apply Hstep]. }
  by apply Hgen.
Qed.

(** X3. At every moment of the life of a page no two records of [users]
    have the same email: the demo records have distinct emails and
    [handleRegister] refuses an email that is taken. *)
Theorem emails_stay_distinct storage d (l : list Action) :
  distinct_emails (users (lifetime l (initial_page storage d))).
Proof.
  apply (users_lifetime_ind distinct_emails).
  - unfold distinct_emails. compute_done.
  - intros us nm e pw ut Hnd _ Hfresh. unfold distinct_emails in *.
    rewrite fmap_app. apply NoDup_app. split; [done|]. split.
    + intros x (u & Hx & Hu)%list_elem_of_fmap Hin.
      apply list_elem_of_singleton in Hin. subst x.
      by apply (Hfresh u).
    + apply NoDup_singleton.
Qed.

(** X4. At every moment of the life of a page the ids of [users] are
    1, 2, ..., [users.length] in list order, so [users.length + 1] is
    never an id in use. *)
Theorem ids_stay_numbered storage d (l : list Action) :
  numbered (users (lifetime l (initial_page storage d))).
Proof.
  apply (users_lifetime_ind numbered).
  - reflexivity.
  - intros us nm e pw ut Hn _ _. unfold numbered in *.
    rewrite fmap_app, length_app, seq_app, Hn. simpl. do 2 f_equal. lia.
Qed.

(** X5. At every moment of the life of a page every record of [users] has
    a password of at least 6 code units. *)
Theorem passwords_stay_long storage d (l : list Action) :
  passwords_long (users (lifetime l (initial_page storage d))).
Proof.
  apply (users_lifetime_ind passwords_long).
  - unfold passwords_long, initial_users.
    repeat apply Forall_cons_2; [vm_compute; lia..|apply Forall_nil_2].
  - intros us nm e pw ut Hp Hlen _. unfold passwords_long in *.
    apply Forall_app. split; [done|]. by apply Forall_singleton.
Qed.

(** X6. At every moment of the life of a page the role of every record
    of [users] is the one line 74 derives from its user type: the three
    demo records were written that way. *)
Theorem roles_stay_consistent storage d (l : list Action) :
  roles_consistent (users (lifetime l (initial_page storage d))).
Proof.
  apply (users_lifetime_ind roles_consistent).
  - unfold roles_consistent, initial_users.
    repeat apply Forall_cons_2; [reflexivity..|apply Forall_nil_2].
  - intros us nm e pw ut Hr _ _. unfold roles_consistent in *.
    apply Forall_app. split; [done|]. by apply Forall_singleton.
Qed.

(** X7. The three demo records are never lost: at every moment of the
    life of a page [users] starts with them, in their order. *)
Theorem demo_users_stay storage d (l : list Action) :
  ∃ registered,
    users (lifetime l (initial_page storage d)) = initial_users ++ registered.
Proof.
  apply (users_lifetime_ind (λ us, ∃ r, us = initial_users ++ r)).
  - exists []. by rewrite app_nil_r.
  - intros us nm e pw ut [r ->] _ _. eexists. by rewrite <-app_assoc.
Qed.

End Lifetime.

(** ** Logging in as a listed user *)

Lemma NoDup_fmap_eq {A B} (f : A → B) (l : list A) x y :
  NoDup (f <$> l) → x ∈ l → y ∈ l → f x = f y → x = y.
Proof.
  induction l as [|a l IH]; intros Hnd Hx Hy Hf; [by apply elem_of_nil in Hx|].
  rewrite fmap_cons in Hnd. apply NoDup_cons in Hnd as [Ha Hnd].
  apply elem_of_cons in Hx as [->|Hx]; apply elem_of_cons in Hy as [->|Hy].
  - done.
  - destruct Ha. rewrite Hf. apply list_elem_of_fmap. eauto.
  - destruct Ha. rewrite <-Hf. apply list_elem_of_fmap. eauto.
  - by apply IH.
Qed.

Lemma find_own_credentials us u :
  distinct_emails us → u ∈ us →
  find (credentials_match (email u) (password u)) us = Some u.
Proof.
  intros Hnd Hu.
  destruct (find _ us) as [u'|] eqn:Hfind.
  - apply find_some in Hfind as [Hu'%list_elem_of_In [He _]%credentials_match_spec].
    f_equal. by apply (NoDup_fmap_eq email us).
  - pose proof (proj1 (find_credentials_None _ _ _) Hfind u Hu) as Hno.
    by destruct Hno.
Qed.

Lemma find_snoc {A} (f : A → bool) l x :
  find f (l ++ [x])
  = match find f l with
    | Some y => Some y
    | None => if f x then Some x else None
    end.
Proof.
  induction l as [|a l IH]; simpl; [done|]. by destruct (f a).
Qed.

Section Visits.
Context `{Host}.

(** A login that finds the record [u], on a well-formed page. *)
Lemma handleLogin_found p e pw u :
  page_ok (document p) = true →
  value <$> elementById (js "loginEmail") p = Some e →
  value <$> elementById (js "loginPassword") p = Some pw →
  find (credentials_match e pw) (users p) = Some u →
  ∃ p', handleLogin p = (Normal tt, p')
    ∧ users p' = users p
    ∧ currentUser p' = user_obj u
    ∧ localStorage p'
      = <[key_currentUser := JSON_stringify (user_obj u)]> (localStorage p)
    ∧ dashboard_shown (name u) (role u) p'.
Proof.
  intros Hok He Hpw Hfind.
  defined Hok "authScreen" a ea. defined Hok "dashboard" b eb.
  defined Hok "displayUserName" c ec. defined Hok "displayUserRole" d ed.
  defined Hok "userInitial" f ef. defined Hok "dashboard-section" g eg.
  eexists. split; [by eapply handleLogin_match|].
  split_and!; try done.
  by apply (dashboard_doc_shown (with_localStorage _ (with_currentUser _ p))).
Qed.

(** X8. When the emails of [users] are distinct, submitting the email and
    the password of a record of [users] logs in that very record: it
    becomes [currentUser], its serialization is stored, and the dashboard
    shows its name and role. *)
Theorem handleLogin_logs_in_that_user (p : Page) (u : User) :
  page_ok (document p) = true →
  distinct_emails (users p) →
  u ∈ users p →
  value <$> elementById (js "loginEmail") p = Some (email u) →
  value <$> elementById (js "loginPassword") p = Some (password u) →
  ∃ p', handleLogin p = (Normal tt, p')
    ∧ currentUser p' = user_obj u
    ∧ localStorage p' !! key_currentUser = Some (JSON_stringify (user_obj u))
    ∧ dashboard_shown (name u) (role u) p'.
Proof.
  intros Hok Hnd Hu He Hpw.
  destruct (handleLogin_found p _ _ u Hok He Hpw) as (p' & Hrun & _ & Hcu & Hst & Hsh).
  { by apply find_own_credentials. }
  exists p'. split_and!; try done. rewrite Hst. apply lookup_insert_eq.
Qed.

Lemma run_keeps_ids h p i :
  getElementById i (document (run h p).2) = getElementById i (document p).
Proof. apply getElementById_ids, selectors_ids, (run_keeps_skeleton h p). Qed.

Lemma enter_keeps_page_ok n v p :
  page_ok (document (with_document (alter (set_value v) n) p))
  = page_ok (document p).
Proof. apply page_ok_selectors. simpl. by apply selectors_alter, _. Qed.

(** X9. A visitor who has registered can log in again during the same
    visit: after a successful [handleRegister], a [handleLogout], and the
    registered email and password typed into the login form,
    [handleLogin] makes the registered record [currentUser], stores it
    and shows the dashboard with the registered name and role. *)
Theorem registered_user_can_log_in (p : Page) (nm e pw ut : jsstring)
    (ne np : nat) :
  page_ok (document p) = true →
  register_form p nm e pw ut →
  6 ≤ length pw →
  (∀ u, u ∈ users p → email u ≠ e) →
  getElementById (js "loginEmail") (document p) = Some ne →
  getElementById (js "loginPassword") (document p) = Some np →
  let nu := newUser (users p) nm e pw ut in
  let p' := lifetime [Fire HRegister; Fire HLogout; Enter ne e; Enter np pw;
                      Fire HLogin] p in
  users p' = users p ++ [nu]
  ∧ currentUser p' = user_obj nu
  ∧ localStorage p' !! key_currentUser = Some (JSON_stringify (user_obj nu))
  ∧ dashboard_shown nm (role_of ut) p'.
Proof.
  intros Hok Hform Hlen Hfresh Hne Hnp nu.
  unfold lifetime. cbn [fold_left perform].
  set (p1 := (run HRegister p).2).
  set (p2 := (run HLogout p1).2).
  set (p4 := with_document (alter (set_value pw) np)
               (with_document (alter (set_value e) ne) p2)).
  assert (Hus1 : users p1 = users p ++ [nu]).
  { defined Hok "authScreen" a ea. defined Hok "dashboard" b eb.
    defined Hok "displayUserName" c ec. defined Hok "displayUserRole" d ed.
    defined Hok "userInitial" f ef. defined Hok "dashboard-section" g eg.
    unfold p1. simpl.
    erewrite handleRegister_fresh; [done|try done..].
    - lia.
    - by apply find_email_None. }
  assert (Hus2 : users p2 = users p ++ [nu]).
  { unfold p2. simpl. pose proof (handleLogout_session p1) as Hs.
    unfold session in Hs. congruence. }
  assert (Hne2 : getElementById (js "loginEmail") (document p2) = Some ne)
    by (unfold p2, p1; by rewrite !run_keeps_ids).
  assert (Hnp2 : getElementById (js "loginPassword") (document p2) = Some np)
    by (unfold p2, p1; by rewrite !run_keeps_ids).
  destruct (getElementById_Some _ _ _ Hne2) as (ee & Hee & _).
  destruct (getElementById_Some _ _ _ Hnp2) as (ep & Hep & _).
  assert (Hok4 : page_ok (document p4) = true).
  { unfold p4. rewrite !enter_keeps_page_ok.
    unfold p2, p1. by rewrite !run_keeps_page_ok. }
  destruct (handleLogin_found p4 e pw nu Hok4) as (p5 & Hrun & Hus & Hcu & Hst & Hsh).
  - unfold p4. observe. by rewrite Hee.
  - unfold p4. observe. by rewrite Hep.
  - replace (users p4) with (users p ++ [nu]) by done.
    rewrite find_snoc.
    rewrite (proj2 (find_credentials_None e pw (users p))).
    + unfold credentials_match. simpl. by rewrite !bool_decide_true.
    + intros u Hu [He _]. by apply (Hfresh u).
  - change (run HLogin p4) with (handleLogin p4). rewrite Hrun. simpl.
    split_and!; try done.
    + by rewrite Hus.
    + rewrite Hst. apply lookup_insert_eq.
Qed.

End Visits.

(** ** Reloading the page *)

Section Reload.
Context `{Host}.

(** The load handler on a well-formed page whose stored text parses to a
    user record. *)
Lemma onLoad_user_record p s v :
  page_ok (document p) = true →
  localStorage p !! key_currentUser = Some s → s ≠ [] →
  JSON_parse s = Some v → is_user_record v = true →
  ∃ p' nm rl, onLoad p = (Normal tt, p')
    ∧ currentUser p' = v
    ∧ ownProp v (js "name") = VStr nm ∧ ownProp v (js "role") = VStr rl
    ∧ dashboard_shown nm rl p'
    ∧ users p' = users p ∧ localStorage p' = localStorage p.
Proof.
  intros Hok Hs Hne Hparse (props & nm & rl & -> & Hnm & Hrl)%is_user_record_props.
  defined Hok "authScreen" a ea. defined Hok "dashboard" b eb.
  defined Hok "displayUserName" c ec. defined Hok "displayUserRole" d ed.
  defined Hok "userInitial" e ee. defined Hok "dashboard-section" f ef.
  eexists. exists nm, rl. split; [by eapply onLoad_restores|].
  split_and!; try done.
  apply dashboard_shown_section_shown.
  - fields. rewrite <-Hok. apply page_ok_selectors, selectors_dashboard_doc.
  - fields. rewrite (getElementById_ids _ _ (document p)); [done|].
    apply selectors_ids, selectors_dashboard_doc.
  - by apply (dashboard_doc_shown (with_currentUser _ p)).
Qed.

(** X10. A mirrored session survives a reload.  When [currentUser] is
    the record [u], local storage mirrors it, and the host's [JSON.parse]
    gives the record back from its non-empty serialization, then
    evaluating the script again on a well-formed page with the same
    storage and running the load handler makes [u] the current user
    again and shows the dashboard with its name and role; the user list
    is the three demo records again. *)
Theorem session_survives_reload (p : Page) (u : User) (d : Document) :
  currentUser p = user_obj u →
  mirrored p →
  JSON_parse (JSON_stringify (user_obj u)) = Some (user_obj u) →
  JSON_stringify (user_obj u) ≠ [] →
  page_ok d = true →
  ∃ p', onLoad (initial_page (localStorage p) d) = (Normal tt, p')
    ∧ currentUser p' = currentUser p
    ∧ localStorage p' = localStorage p
    ∧ users p' = initial_users
    ∧ dashboard_shown (name u) (role u) p'.
Proof.
  intros Hcu Hm Hparse Hne Hok.
  unfold mirrored in Hm. rewrite Hcu in Hm. simpl in Hm.
  destruct (onLoad_user_record (initial_page (localStorage p) d)
              (JSON_stringify (user_obj u)) (user_obj u))
    as (p' & nm & rl & Hrun & Hcu' & Hnm & Hrl & Hsh & Hus & Hst);
    [done..|].
  rewrite ownProp_user_name in Hnm. rewrite ownProp_user_role in Hrl.
  simplify_eq. exists p'. split_and!; try done. congruence.
Qed.

(** X11. A logout survives a reload: whatever the state in which
    [handleLogout] ran, evaluating the script again with the storage it
    left and running the load handler restores nothing and changes
    nothing. *)
Theorem logout_survives_reload (p : Page) (d : Document) :
  onLoad (initial_page (localStorage (handleLogout p).2) d)
  = (Normal tt, initial_page (localStorage (handleLogout p).2) d).
Proof.
  apply onLoad_absent. left. simpl.
  pose proof (handleLogout_session p) as Hs. unfold session in Hs.
  replace (localStorage (handleLogout p).2)
    with (delete key_currentUser (localStorage p)) by congruence.
  apply lookup_delete_eq.
Qed.

End Reload.

(** ** What the handlers never write *)

Section Never.
Context `{Host}.

Lemma keeps_session_localStorage {A} (c : JS A) :
  keeps session c → keeps localStorage c.
Proof. intros Hc p. specialize (Hc p). unfold session in Hc. congruence. Qed.

Lemma keeps_localStorage_onLoad : keeps localStorage onLoad.
Proof.
  unfold onLoad. apply keeps_bind; [apply keeps_gets|]. intros [[|c s]|].
  - apply keeps_ret.
  - destruct (JSON_parse (c :: s)) as [v|]; [|apply keeps_throw].
    apply keeps_bind; [by apply keeps_modify|]. intros _.
    apply keeps_bind;
      [apply keeps_session_localStorage, keeps_session_showDashboard|].
    intros _. apply keeps_bind; [apply keeps_gets|].
    intros [l|]; apply keeps_session_localStorage, keeps_session_showSection.
  - apply keeps_ret.
Qed.

(** X12. No handler writes a local-storage key other than [currentUser]:
    whatever handler runs, and however it completes, local storage
    without that key is what it was. *)
Theorem other_keys_untouched (h : Handler) (p : Page) :
  delete key_currentUser (localStorage (run h p).2)
  = delete key_currentUser (localStorage p).
Proof.
  destruct h as [| | | | | |s l]; simpl.
  - by rewrite keeps_localStorage_onLoad.
  - destruct (handleLogin_session p) as [Hs|[u Hs]];
      unfold session, signed_in in Hs; simplify_eq.
    + congruence.
    + replace (localStorage (handleLogin p).2)
        with (<[key_currentUser:=JSON_stringify (user_obj u)]> (localStorage p)).
      apply delete_insert_eq.
  - destruct (handleRegister_session p) as [Hs|[u Hs]];
      unfold session, signed_in in Hs; simplify_eq.
    + congruence.
    + replace (localStorage (handleRegister p).2)
        with (<[key_currentUser:=JSON_stringify (user_obj u)]> (localStorage p)).
      apply delete_insert_eq.
  - pose proof (handleLogout_session p) as Hs. unfold session in Hs.
    simplify_eq.
    replace (localStorage (handleLogout p).2)
      with (delete key_currentUser (localStorage p)).
    apply delete_delete_eq.
  - by rewrite (keeps_session_localStorage _ keeps_session_toggleToRegister).
  - by rewrite (keeps_session_localStorage _ keeps_session_toggleToLogin).
  - by rewrite (keeps_session_localStorage _ (keeps_session_showSection s l)).
Qed.

(** X13. Only [handleLogin], [handleRegister] and [handleLogout] write
    the session.  The form toggles and [showSection] leave [users],
    [currentUser] and local storage as they were, and the load handler
    leaves [users] and local storage as they were, whether they return
    or throw. *)
Theorem readers_leave_session (p : Page) (sectionId : jsstring)
    (linkEl : option nat) :
  session (toggleToRegister p).2 = session p
  ∧ session (toggleToLogin p).2 = session p
  ∧ session (showSection sectionId linkEl p).2 = session p
  ∧ users (onLoad p).2 = users p
  ∧ localStorage (onLoad p).2 = localStorage p.
Proof.
  split_and!.
  - apply keeps_session_toggleToRegister.
  - apply keeps_session_toggleToLogin.
  - apply keeps_session_showSection.
  - apply keeps_users_onLoad.
  - apply keeps_localStorage_onLoad.
Qed.

End Never.

(** ** What the handlers never do to the document *)

Section Untouched.
Context `{Host} {B : Type} (g : Element → B) (Hg : untouched g).

Lemma untouched_remove_if c e : g (remove_if c active e) = g e.
Proof. unfold remove_if. destruct (has_class c e); [apply Hg|done]. Qed.

Lemma untouched_alter f n (d : Document) :
  (∀ e, g (f e) = g e) → g <$> alter f n d = g <$> d.
Proof.
  intros Hf. rewrite (list_fmap_alter g f (λ x, x)).
  - by apply list_alter_id.
  - apply Forall_forall. intros e _. apply Hf.
Qed.

Lemma untouched_remove_from_all c (d : Document) :
  g <$> remove_from_all c active d = g <$> d.
Proof.
  unfold remove_from_all. rewrite <-list_fmap_compose.
  apply list_fmap_ext. intros ? e _. apply untouched_remove_if.
Qed.

Lemma keeps_untouched_assignById i f :
  (∀ e, g (f e) = g e) → keeps (λ p, g <$> document p) (assignById i f).
Proof.
  intros Hf. unfold assignById, lookupElement, writeElement.
  apply keeps_bind; [apply keeps_gets|]. intros h.
  apply keeps_bind; [apply keeps_deref|]. intros n.
  apply keeps_modify. intros p. simpl. by apply untouched_alter.
Qed.

Lemma keeps_untouched_error err m :
  keeps (λ p, g <$> document p)
    (n <- deref err ;; writeElement n (set_innerHTML m))%js.
Proof.
  apply keeps_bind; [apply keeps_deref|]. intros n.
  apply keeps_modify. intros p. simpl. apply untouched_alter, Hg.
Qed.

Lemma keeps_untouched_showSection s l :
  keeps (λ p, g <$> document p) (showSection s l).
Proof.
  unfold showSection.
  apply keeps_bind;
    [apply keeps_modify; intros p; apply untouched_remove_from_all|intros _].
  apply keeps_bind;
    [apply keeps_modify; intros p; apply untouched_remove_from_all|intros _].
  apply keeps_bind; [apply keeps_untouched_assignById, Hg|intros _].
  destruct l; [|apply keeps_ret].
  apply keeps_modify. intros p. simpl. apply untouched_alter, Hg.
Qed.

Lemma keeps_untouched_showDashboard :
  keeps (λ p, g <$> document p) showDashboard.
Proof.
  unfold showDashboard.
  repeat first
    [ apply keeps_untouched_showSection
    | apply keeps_untouched_assignById, Hg
    | apply keeps_getProp | apply keeps_textOf | apply keeps_initialOf
    | apply keeps_gets
    | apply keeps_bind; [|intros ?] ].
Qed.

Lemma keeps_untouched_run h : keeps (λ p, g <$> document p) (run h).
Proof.
  destruct h as [| | | | | |s l]; simpl.
  - unfold onLoad. apply keeps_bind; [apply keeps_gets|]. intros [[|c s]|];
      [apply keeps_ret| |apply keeps_ret].
    destruct (JSON_parse (c :: s)); [|apply keeps_throw].
    apply keeps_bind; [by apply keeps_modify|intros _].
    apply keeps_bind; [apply keeps_untouched_showDashboard|intros _].
    apply keeps_bind; [apply keeps_gets|].
    intros [l|]; apply keeps_untouched_showSection.
  - unfold handleLogin, lookupElement.
    do 2 (apply keeps_bind; [apply keeps_getValue|intros ?]).
    do 2 (apply keeps_bind; [apply keeps_gets|intros ?]).
    destruct (find _ _); [|apply keeps_untouched_error].
    do 2 (apply keeps_bind; [by apply keeps_modify|intros _]).
    apply keeps_untouched_showDashboard.
  - unfold handleRegister, lookupElement.
    do 4 (apply keeps_bind; [apply keeps_getValue|intros ?]).
    apply keeps_bind; [apply keeps_gets|intros ?].
    case_decide; [apply keeps_untouched_error|].
    apply keeps_bind; [apply keeps_gets|intros ?].
    destruct (find _ _); [apply keeps_untouched_error|].
    do 3 (apply keeps_bind; [by apply keeps_modify|intros _]).
    apply keeps_untouched_showDashboard.
  - unfold handleLogout.
    do 2 (apply keeps_bind; [by apply keeps_modify|intros _]).
    repeat first [ apply keeps_untouched_assignById, Hg
                 | apply keeps_bind; [|intros ?] ].
  - unfold toggleToRegister.
    repeat first [ apply keeps_untouched_assignById, Hg
                 | apply keeps_bind; [|intros ?] ].
  - unfold toggleToLogin.
    repeat first [ apply keeps_untouched_assignById, Hg
                 | apply keeps_bind; [|intros ?] ].
  - apply keeps_untouched_showSection.
Qed.

Lemma untouched_lifetime (l : list Action) p :
  g <$> document (lifetime l p) = g <$> document p.
Proof.
  unfold lifetime. revert p.
  induction l as [|a l IH]; intros p; simpl; [done|].
  rewrite IH. destruct a as [h|n v]; simpl.
  - apply (keeps_untouched_run h p).
  - apply untouched_alter, Hg.
Qed.

End Untouched.

Lemma untouched_frame : untouched frame.
Proof.
  unfold untouched, frame. split_and!; try done.
  - intros e. cbn [el_id href classList classList_add]. f_equal.
    destruct (has_class active e); [done|].
    rewrite filter_app, filter_cons_False, filter_nil by (by intros []).
    apply app_nil_r.
  - intros e. cbn [el_id href classList classList_remove]. f_equal.
    apply list_filter_filter_l. done.
Qed.

(** X14. An element that the document has at some moment keeps, for the
    rest of the life of the page, its id, its href and its class tokens
    other than [active], whatever handlers run and whatever the visitor
    types: of an element the handlers write only the display style, the
    value, the text, the markup and the token [active].  (The message
    [div] that the browser builds from the markup of lines 45, 58 and 64
    is a new element each time; the statement is about the elements that
    are there before the handlers run.) *)
Theorem elements_keep_their_frame `{Host} (l : list Action) (p : Page)
    (n : nat) (e : Element) :
  document p !! n = Some e →
  ∃ e', document (lifetime l p) !! n = Some e' ∧ frame e' = frame e.
Proof.
  intros He.
  pose proof (untouched_lifetime frame untouched_frame l p) as Hl.
  apply (f_equal (λ d, d !! n)) in Hl.
  rewrite !list_lookup_fmap, He in Hl. simpl in Hl.
  destruct (document (lifetime l p) !! n) as [e'|]; [|done].
  exists e'. split; [done|]. simpl in Hl. congruence.
Qed.

(** ** Navigating twice, and navigating nowhere *)

Lemma classList_remove_twice c e :
  classList_remove c (classList_remove c e) = classList_remove c e.
Proof.
  unfold classList_remove. simpl. f_equal. by apply list_filter_filter_l.
Qed.

Lemma classList_add_twice c e :
  classList_add c (classList_add c e) = classList_add c e.
Proof.
  unfold classList_add at 1. rewrite has_class_add_same. by destruct e.
Qed.

Lemma classList_remove_add c e :
  classList_remove c (classList_add c e) = classList_remove c e.
Proof.
  unfold classList_remove, classList_add. simpl. f_equal.
  destruct (has_class c e); [done|].
  rewrite filter_app, filter_cons_False, filter_nil by (by intros []).
  apply app_nil_r.
Qed.

(** The two loops of [showSection] on one element. *)
Lemma hide_element e :
  remove_if (js "sidebar-link") active (remove_if (js "content-section") active e)
  = if has_class (js "content-section") e || has_class (js "sidebar-link") e
    then classList_remove active e else e.
Proof.
  unfold remove_if at 2.
  destruct (has_class (js "content-section") e) eqn:Hcs; simpl.
  - unfold remove_if.
    rewrite has_class_remove_other by apply active_not_sidebar_link.
    destruct (has_class (js "sidebar-link") e); [|done].
    apply classList_remove_twice.
  - unfold remove_if. by destruct (has_class (js "sidebar-link") e).
Qed.

Lemma hide_element_twice e :
  let hide x := remove_if (js "sidebar-link") active
                  (remove_if (js "content-section") active x) in
  hide (hide e) = hide e.
Proof.
  simpl. rewrite (hide_element e).
  destruct (has_class (js "content-section") e || has_class (js "sidebar-link") e)
    eqn:Hx.
  - rewrite hide_element.
    rewrite !has_class_remove_other
      by first [apply active_not_content_section | apply active_not_sidebar_link].
    rewrite Hx. apply classList_remove_twice.
  - rewrite hide_element. by rewrite Hx.
Qed.

Lemma hide_add_hide e :
  let hide x := remove_if (js "sidebar-link") active
                  (remove_if (js "content-section") active x) in
  classList_add active (hide (classList_add active (hide e)))
  = classList_add active (hide e).
Proof.
  simpl. rewrite (hide_element e).
  destruct (has_class (js "content-section") e || has_class (js "sidebar-link") e)
    eqn:Hx.
  - rewrite hide_element.
    rewrite !has_class_add_other, !has_class_remove_other
      by first [apply active_not_content_section | apply active_not_sidebar_link].
    rewrite Hx. by rewrite classList_remove_add, classList_remove_twice.
  - rewrite hide_element.
    rewrite !has_class_add_other
      by first [apply active_not_content_section | apply active_not_sidebar_link].
    rewrite Hx. apply classList_add_twice.
Qed.

Lemma hide_all_twice d : hide_all (hide_all d) = hide_all d.
Proof.
  unfold hide_all, remove_from_all. rewrite <-!list_fmap_compose.
  apply list_fmap_ext. intros ? e _. simpl. apply hide_element_twice.
Qed.

Lemma section_shown_twice n l d :
  section_shown n l (section_shown n l d) = section_shown n l d.
Proof.
  apply list_eq. intros m. rewrite !section_shown_lookup.
  destruct (d !! m) as [e|]; [|done]. simpl. f_equal.
  destruct (decide (n = m)), (decide (l = Some m));
    rewrite ?classList_add_twice, ?hide_add_hide, ?hide_element_twice;
    done.
Qed.

(** X15. [showSection] is idempotent: calling it a second time with the
    same arguments completes the same way and leaves the page as the
    first call left it, whether the section exists or not. *)
Theorem showSection_idempotent (sectionId : jsstring) (linkEl : option nat)
    (p : Page) :
  showSection sectionId linkEl (showSection sectionId linkEl p).2
  = showSection sectionId linkEl p.
Proof.
  destruct (getElementById (sectionId ++ js "-section") (document p))
    as [n|] eqn:Hn.
  - rewrite (showSection_found _ _ p n) by done. simpl.
    rewrite (showSection_found _ _ _ n)
      by (simpl; by rewrite getElementById_ids_section_shown).
    unfold with_document. simpl. by rewrite section_shown_twice.
  - rewrite (showSection_missing _ _ p) by done. simpl.
    rewrite showSection_missing
      by (simpl; unfold hide_all; by rewrite !getElementById_remove_from_all).
    unfold with_document. simpl. by rewrite hide_all_twice.
Qed.

(** X16. For a section id that has no element, [showSection] throws a
    [TypeError] after its two loops have run: afterwards no content
    section and no sidebar link carries the class [active], the passed
    link has not been marked, and the session is untouched. *)
Theorem showSection_unknown_hides_all (p : Page) (sectionId : jsstring)
    (linkEl : option nat) :
  getElementById (sectionId ++ js "-section") (document p) = None →
  ∃ p', showSection sectionId linkEl p = (Throw TypeError, p')
    ∧ session p' = session p
    ∧ ∀ m el, document p' !! m = Some el →
              is_active_section el = false ∧ is_active_link el = false.
Proof.
  intros Hn. eexists. split; [by apply showSection_missing|].
  split; [done|]. intros m el. simpl. unfold hide_all, remove_from_all.
  rewrite !list_lookup_fmap.
  destruct (document p !! m) as [e|]; [|done]. simpl. intros [= <-].
  rewrite hide_element. unfold is_active_section, is_active_link.
  destruct (has_class (js "content-section") e) eqn:Hcs,
           (has_class (js "sidebar-link") e) eqn:Hsl; simpl;
    rewrite ?has_class_remove_same, ?has_class_remove_other, ?Hcs, ?Hsl
      by first [apply active_not_content_section | apply active_not_sidebar_link];
    done.
Qed.

(** ** Handlers that stop half-way *)

Section Halfway.
Context `{Host}.

(** X17. When the stored text is JSON for [null], the load handler throws
    a [TypeError] only after [showDashboard] has hidden the auth screen
    and activated the dashboard: the visitor is left without a session
    ([currentUser] is [null]) and without the login screen.  Local
    storage keeps the text. *)
Theorem onLoad_null_hides_login (p : Page) (s : jsstring) :
  defines [js "authScreen"; js "dashboard"] (document p) = true →
  localStorage p !! key_currentUser = Some s → s ≠ [] →
  JSON_parse s = Some VNull →
  ∃ p', onLoad p = (Throw TypeError, p')
    ∧ currentUser p' = VNull
    ∧ localStorage p' = localStorage p
    ∧ display <$> elementById (js "authScreen") p' = Some (js "none")
    ∧ has_class active <$> elementById (js "dashboard") p' = Some true.
Proof.
  intros Hok Hs Hne Hparse.
  defined Hok "authScreen" a ea. defined Hok "dashboard" b eb.
  eexists. split.
  { unfold onLoad. erewrite bind_Normal by reflexivity.
    rewrite Hs. destruct s; [done|]. cbv beta iota. rewrite Hparse.
    erewrite bind_Normal by reflexivity.
    erewrite (bind_Throw showDashboard); [reflexivity|].
    unfold showDashboard. assign Ha. assign Hb.
    erewrite bind_Normal by reflexivity. fields.
    reflexivity. }
  split_and!; try done.
  - observe. by rewrite Hea.
  - observe. rewrite Heb. simpl. by rewrite has_class_add_same.
Qed.

(** X18. [handleLogin] writes the session before it touches the
    dashboard: when [users.find] returns the record [u] and the page has
    no auth screen, the call throws a [TypeError] with [currentUser]
    already set to [u] and its serialization already stored, and nothing
    else changed. *)
Theorem handleLogin_session_before_dashboard (p : Page) (e pw : jsstring)
    (u : User) :
  value <$> elementById (js "loginEmail") p = Some e →
  value <$> elementById (js "loginPassword") p = Some pw →
  find (credentials_match e pw) (users p) = Some u →
  getElementById (js "authScreen") (document p) = None →
  handleLogin p
  = (Throw TypeError,
     with_localStorage
       (insert key_currentUser (JSON_stringify (user_obj u)))
       (with_currentUser (user_obj u) p)).
Proof.
  intros (el & Hel & <-)%field_Some (pl & Hpl & <-)%field_Some Hfind Ha.
  unfold handleLogin.
  erewrite bind_Normal by (rewrite getValue_run, Hel; reflexivity).
  erewrite bind_Normal by (rewrite getValue_run, Hpl; reflexivity).
  do 2 (erewrite bind_Normal by reflexivity).
  rewrite Hfind.
  do 2 (erewrite bind_Normal by reflexivity).
  unfold showDashboard.
  by erewrite (bind_Throw (assignById _ _)) by by apply assignById_missing.
Qed.

End Halfway.

(** ** What is stored, and what is not checked *)

Lemma ownProp_user_password u :
  ownProp (user_obj u) (js "password") = VStr (password u).
Proof. reflexivity. Qed.

Lemma ownProp_user_email u :
  ownProp (user_obj u) (js "email") = VStr (email u).
Proof. reflexivity. Qed.

(** X19. A successful login puts the password in local storage: when a
    record has the submitted email and password, what [handleLogin]
    stores under [currentUser] is the serialization of an object whose
    [email] and [password] properties are the submitted ones. *)
Theorem handleLogin_stores_password `{Host} (p : Page) (e pw : jsstring) :
  page_ok (document p) = true →
  value <$> elementById (js "loginEmail") p = Some e →
  value <$> elementById (js "loginPassword") p = Some pw →
  (∃ u, u ∈ users p ∧ email u = e ∧ password u = pw) →
  ∃ p' v, handleLogin p = (Normal tt, p')
    ∧ localStorage p' !! key_currentUser = Some (JSON_stringify v)
    ∧ ownProp v (js "email") = VStr e
    ∧ ownProp v (js "password") = VStr pw.
Proof.
  intros Hok He Hpw (u0 & Hu0 & Hm).
  destruct (find (credentials_match e pw) (users p)) as [u|] eqn:Hfind.
  - destruct (handleLogin_found p e pw u Hok He Hpw Hfind)
      as (p' & Hrun & _ & _ & Hst & _).
    apply find_some in Hfind as [_ [<- <-]%credentials_match_spec].
    exists p', (user_obj u). split_and!; [done| |done..].
    rewrite Hst. apply lookup_insert_eq.
  - by destruct (proj1 (find_credentials_None _ _ _) Hfind u0 Hu0).
Qed.

(** X20. [showSection] does not look at the session: it completes the
    same way and does the same to the document whoever is logged in, and
    when nobody is. *)
Theorem showSection_ignores_session (sectionId : jsstring)
    (linkEl : option nat) (p : Page) (v : JsValue) :
  showSection sectionId linkEl (with_currentUser v p)
  = ((showSection sectionId linkEl p).1,
     with_currentUser v (showSection sectionId linkEl p).2).
Proof.
  destruct (getElementById (sectionId ++ js "-section") (document p))
    as [n|] eqn:Hn.
  - by rewrite (showSection_found _ _ p n), (showSection_found _ _ _ n).
  - by rewrite (showSection_missing _ _ p), showSection_missing.
Qed.

(** ** The mirror over a whole visit *)

Section Visit.
Context `{Host}.

Lemma perform_keeps_mirrored a p :
  a ≠ Fire HLoad → mirrored p → mirrored (perform a p).
Proof.
  intros Ha Hm. destruct a as [h|n v]; [|done]. simpl.
  destruct h as [| | | | | |s l]; simpl.
  - done.
  - destruct (handleLogin_session p) as [Hs|[u Hs]].
    + unfold session in Hs. simplify_eq. by eapply mirrored_session.
    + by eapply mirrored_signed_in.
  - destruct (handleRegister_session p) as [Hs|[u Hs]].
    + unfold session in Hs. simplify_eq. by eapply mirrored_session.
    + by eapply mirrored_signed_in.
  - pose proof (handleLogout_session p) as Hs.
    unfold session in Hs. simplify_eq.
    unfold mirrored. replace (currentUser (handleLogout p).2) with VNull.
    replace (localStorage (handleLogout p).2)
      with (delete key_currentUser (localStorage p)).
    apply lookup_delete_eq.
  - pose proof (keeps_session_toggleToRegister p) as Hs.
    unfold session in Hs. simplify_eq. by eapply mirrored_session.
  - pose proof (keeps_session_toggleToLogin p) as Hs.
    unfold session in Hs. simplify_eq. by eapply mirrored_session.
  - pose proof (keeps_session_showSection s l p) as Hs.
    unfold session in Hs. simplify_eq. by eapply mirrored_session.
Qed.

(** X21. Over a whole visit that starts with nothing stored under
    [currentUser], local storage mirrors the session at every moment:
    after the load handler and any sequence of logins, registrations,
    logouts, form toggles, section changes and edits of form controls,
    the stored entry is the serialization of [currentUser] when somebody
    is logged in and is absent when [currentUser] is [null]. *)
Theorem visit_stays_mirrored storage d (l : list Action) :
  storage !! key_currentUser = None →
  Forall (λ a, a ≠ Fire HLoad) l →
  mirrored (lifetime (Fire HLoad :: l) (initial_page storage d)).
Proof.
  intros Hs Hl. unfold lifetime. simpl.
  rewrite onLoad_absent by (by left). simpl.
  assert (Hgen : ∀ p, mirrored p →
            mirrored (fold_left (λ q a, perform a q) l p)).
  { induction Hl as [|a l Ha Hl IH]; intros p Hp; simpl; [done|].
    by apply IH, perform_keeps_mirrored. }
  by apply Hgen, initial_page_mirrored.
Qed.

End Visit.

(** * The further properties on the sample page *)

Section MoreEvaluation.
Existing Instance RefHost.host.

(** The two forms of the sample page. *)
Lemma toggles_swap_forms_witness :
  defines [js "loginForm"; js "registerForm"] (document fresh_page) = true
  ∧ ∃ p1 p2, toggleToRegister fresh_page = (Normal tt, p1)
      ∧ display <$> elementById (js "loginForm") p1 = Some (js "none")
      ∧ display <$> elementById (js "registerForm") p1 = Some (js "block")
      ∧ toggleToLogin p1 = (Normal tt, p2)
      ∧ display <$> elementById (js "loginForm") p2 = Some (js "block")
      ∧ display <$> elementById (js "registerForm") p2 = Some (js "none")
      ∧ session p1 = session fresh_page ∧ session p2 = session fresh_page.
Proof.
  split; [reflexivity|]. apply (toggles_swap_forms fresh_page). reflexivity.
Defined.

(** The demo user logs in with the demo credentials. *)
Lemma handleLogin_logs_in_that_user_witness :
  page_ok (document login_page) = true
  ∧ distinct_emails (users login_page)
  ∧ demo_user ∈ users login_page
  ∧ value <$> elementById (js "loginEmail") login_page = Some (email demo_user)
  ∧ value <$> elementById (js "loginPassword") login_page
    = Some (password demo_user)
  ∧ ∃ p', handleLogin login_page = (Normal tt, p')
      ∧ currentUser p' = user_obj demo_user
      ∧ localStorage p' !! key_currentUser
        = Some (JSON_stringify (user_obj demo_user))
      ∧ dashboard_shown (name demo_user) (role demo_user) p'.
Proof.
  assert (Hnd : distinct_emails (users login_page))
    by (unfold distinct_emails; compute_done).
  assert (Hin : demo_user ∈ users login_page) by (by left).
  split; [reflexivity|]. split; [exact Hnd|]. split; [exact Hin|].
  split; [reflexivity|]. split; [reflexivity|].
  apply (handleLogin_logs_in_that_user login_page demo_user);
    [reflexivity | exact Hnd | exact Hin | reflexivity | reflexivity].
Defined.

(** Ada registers, logs out and logs in again. *)
Lemma registered_user_can_log_in_witness :
  page_ok (document register_page) = true
  ∧ register_form register_page
      (js "Ada") (js "ada@example.com") (js "secret1") (js "solo")
  ∧ 6 ≤ length (js "secret1")
  ∧ (∀ u, u ∈ users register_page → email u ≠ js "ada@example.com")
  ∧ getElementById (js "loginEmail") (document register_page) = Some 2
  ∧ getElementById (js "loginPassword") (document register_page) = Some 3
  ∧ let nu := newUser (users register_page)
                (js "Ada") (js "ada@example.com") (js "secret1") (js "solo") in
    let p' := lifetime [Fire HRegister; Fire HLogout;
                        Enter 2 (js "ada@example.com");
                        Enter 3 (js "secret1"); Fire HLogin] register_page in
    users p' = users register_page ++ [nu]
    ∧ currentUser p' = user_obj nu
    ∧ localStorage p' !! key_currentUser = Some (JSON_stringify (user_obj nu))
    ∧ dashboard_shown (js "Ada") (role_of (js "solo")) p'.
Proof.
  assert (Hfresh : ∀ u, u ∈ users register_page →
            email u ≠ js "ada@example.com")
    by (apply find_email_None; reflexivity).
  assert (Hlen : 6 ≤ length (js "secret1")) by (vm_compute; lia).
  split; [reflexivity|]. split; [repeat split|].
  split; [exact Hlen|]. split; [exact Hfresh|].
  split; [reflexivity|]. split; [reflexivity|].
  apply (registered_user_can_log_in register_page
           (js "Ada") (js "ada@example.com") (js "secret1") (js "solo") 2 3);
    [reflexivity | repeat split | exact Hlen | exact Hfresh
    | reflexivity | reflexivity].
Defined.

(** The demo user logs in and the page is reloaded. *)
Lemma session_survives_reload_witness :
  currentUser (handleLogin login_page).2 = user_obj demo_user
  ∧ mirrored (handleLogin login_page).2
  ∧ JSON_parse (JSON_stringify (user_obj demo_user)) = Some (user_obj demo_user)
  ∧ JSON_stringify (user_obj demo_user) ≠ []
  ∧ page_ok sample_document = true
  ∧ ∃ p', onLoad (initial_page (localStorage (handleLogin login_page).2)
                    sample_document) = (Normal tt, p')
      ∧ currentUser p' = currentUser (handleLogin login_page).2
      ∧ localStorage p' = localStorage (handleLogin login_page).2
      ∧ users p' = initial_users
      ∧ dashboard_shown (name demo_user) (role demo_user) p'.
Proof.
  assert (Hne : JSON_stringify (user_obj demo_user) ≠ []) by js_neq.
  split; [reflexivity|]. split; [reflexivity|]. split; [reflexivity|].
  split; [exact Hne|]. split; [reflexivity|].
  apply (session_survives_reload (handleLogin login_page).2 demo_user
           sample_document);
    [reflexivity | reflexivity | reflexivity | exact Hne | reflexivity].
Defined.

(** The sample page has no documents section. *)
Lemma showSection_unknown_hides_all_witness :
  getElementById (js "documents" ++ js "-section") (document fresh_page) = None
  ∧ ∃ p', showSection (js "documents") (Some 16) fresh_page
          = (Throw TypeError, p')
      ∧ session p' = session fresh_page
      ∧ ∀ m el, document p' !! m = Some el →
                is_active_section el = false ∧ is_active_link el = false.
Proof.
  split; [reflexivity|].
  apply (showSection_unknown_hides_all fresh_page (js "documents") (Some 16)).
  reflexivity.
Defined.

(** A reload with the text [null] stored. *)
Lemma onLoad_null_hides_login_witness :
  defines [js "authScreen"; js "dashboard"] (document null_page) = true
  ∧ localStorage null_page !! key_currentUser = Some (js "null")
  ∧ js "null" ≠ []
  ∧ JSON_parse (js "null") = Some VNull
  ∧ ∃ p', onLoad null_page = (Throw TypeError, p')
      ∧ currentUser p' = VNull
      ∧ localStorage p' = localStorage null_page
      ∧ display <$> elementById (js "authScreen") p' = Some (js "none")
      ∧ has_class active <$> elementById (js "dashboard") p' = Some true.
Proof.
  assert (Hne : js "null" ≠ []) by js_neq.
  split; [reflexivity|]. split; [reflexivity|]. split; [exact Hne|].
  split; [reflexivity|].
  apply (onLoad_null_hides_login null_page (js "null"));
    [reflexivity | reflexivity | exact Hne | reflexivity].
Defined.

(** The demo credentials on a page without the auth screen. *)
Lemma handleLogin_session_before_dashboard_witness :
  value <$> elementById (js "loginEmail") headless_page
  = Some (js "demo@lawfirm.com")
  ∧ value <$> elementById (js "loginPassword") headless_page
    = Some (js "Demo@123")
  ∧ find (credentials_match (js "demo@lawfirm.com") (js "Demo@123"))
      (users headless_page) = Some demo_user
  ∧ getElementById (js "authScreen") (document headless_page) = None
  ∧ handleLogin headless_page
    = (Throw TypeError,
       with_localStorage
         (insert key_currentUser (JSON_stringify (user_obj demo_user)))
         (with_currentUser (user_obj demo_user) headless_page)).
Proof.
  split; [reflexivity|]. split; [reflexivity|]. split; [reflexivity|].
  split; [reflexivity|].
  apply (handleLogin_session_before_dashboard headless_page
           (js "demo@lawfirm.com") (js "Demo@123") demo_user); reflexivity.
Defined.

(** The demo credentials put the demo password in storage. *)
Lemma handleLogin_stores_password_witness :
  page_ok (document login_page) = true
  ∧ value <$> elementById (js "loginEmail") login_page
    = Some (js "demo@lawfirm.com")
  ∧ value <$> elementById (js "loginPassword") login_page
    = Some (js "Demo@123")
  ∧ (∃ u, u ∈ users login_page ∧ email u = js "demo@lawfirm.com"
          ∧ password u = js "Demo@123")
  ∧ ∃ p' v, handleLogin login_page = (Normal tt, p')
      ∧ localStorage p' !! key_currentUser = Some (JSON_stringify v)
      ∧ ownProp v (js "email") = VStr (js "demo@lawfirm.com")
      ∧ ownProp v (js "password") = VStr (js "Demo@123").
Proof.
  assert (Hex : ∃ u, u ∈ users login_page ∧ email u = js "demo@lawfirm.com"
                     ∧ password u = js "Demo@123").
  { exists demo_user. split; [by left|]. split; reflexivity. }
  split; [reflexivity|]. split; [reflexivity|]. split; [reflexivity|].
  split; [exact Hex|].
  apply (handleLogin_stores_password login_page
           (js "demo@lawfirm.com") (js "Demo@123"));
    [reflexivity | reflexivity | reflexivity | exact Hex].
Defined.

(** A visit: a failed login, a registration, a logout, a login. *)
Lemma visit_stays_mirrored_witness :
  (∅ : gmap jsstring jsstring) !! key_currentUser = None
  ∧ Forall (λ a, a ≠ Fire HLoad)
      [Fire HLogin; Enter 6 (js "Ada"); Enter 7 (js "ada@example.com");
       Enter 8 (js "secret1"); Fire HRegister; Fire HLogout;
       Enter 2 (js "ada@example.com"); Enter 3 (js "secret1"); Fire HLogin]
  ∧ mirrored
      (lifetime
         (Fire HLoad ::
          [Fire HLogin; Enter 6 (js "Ada"); Enter 7 (js "ada@example.com");
           Enter 8 (js "secret1"); Fire HRegister; Fire HLogout;
           Enter 2 (js "ada@example.com"); Enter 3 (js "secret1");
           Fire HLogin])
         (initial_page ∅ sample_document)).
Proof.
  assert (Hl : Forall (λ a, a ≠ Fire HLoad)
      [Fire HLogin; Enter 6 (js "Ada"); Enter 7 (js "ada@example.com");
       Enter 8 (js "secret1"); Fire HRegister; Fire HLogout;
       Enter 2 (js "ada@example.com"); Enter 3 (js "secret1"); Fire HLogin])
    by (repeat constructor; discriminate).
  split; [reflexivity|]. split; [exact Hl|].
  apply (visit_stays_mirrored ∅ sample_document); [reflexivity | exact Hl].
Defined.

(** The error element of the login form, over a rejected login, a form
    toggle and a logout. *)
Lemma elements_keep_their_frame_witness :
  document wrong_password_page !! 4 = Some (element "loginError" [])
  ∧ ∃ e', document
            (lifetime [Fire HLogin; Fire HToggleToRegister; Fire HLogout]
               wrong_password_page) !! 4 = Some e'
      ∧ frame e' = frame (element "loginError" []).
Proof.
  split; [reflexivity|].
  apply (elements_keep_their_frame
           [Fire HLogin; Fire HToggleToRegister; Fire HLogout]
           wrong_password_page 4 (element "loginError" [])).
  reflexivity.
Defined.

End MoreEvaluation.
